(** * Liveness tester for proxy links ([tester.py]): model and properties

    The probes of [tester.py] talk to the network and to the Python
    library.  Everything outside the repository (the resolver, the
    sockets, [urlparse], [json.loads], the clock) is a field of a
    [World]; the code of the repository itself is translated
    function by function and runs in a small state-and-exception monad.

    Conventions
    - a Python [str] is a Rocq [string] whose characters are code points
      below 256; [bytes] are [list Z] with every element in [0, 256);
    - the clock is in microseconds; a per-test timeout is in seconds;
    - an exception is a class together with its [str(e)] text; only
      subclasses of [Exception] are modelled;
    - [socket.close()] and [ssl.create_default_context()] do not raise;
    - every probe leaves a trace of the calls it makes to [urlparse],
      [base64.b64decode] and the socket layer, so that what it attempts,
      and in which order, can be stated. *)

From Stdlib Require Import ZArith String Ascii List Lia Bool.
From stdpp Require Import base option list gmap strings pretty.

Import ListNotations.
Set Warnings "-register-all".
Local Open Scope string_scope.
Local Open Scope Z_scope.

(** ** Python values and exceptions *)

Module Py.

(** The exception classes the handlers of [tester.py] tell apart, and a
    few more that the library raises on the way. *)
Inductive exn_class :=
  | SocketTimeout          (* socket.timeout *)
  | GaiError               (* socket.gaierror *)
  | ConnectionRefusedError
  | SSLError               (* ssl.SSLError *)
  | OSError                (* any other OSError *)
  | JSONDecodeError        (* json.JSONDecodeError *)
  | BinasciiError          (* binascii.Error *)
  | ValueError             (* any other ValueError *)
  | IndexError
  | TypeError
  | AttributeError
  | OverflowError
  | OtherException.

Record exn := Exn { exn_class_of : exn_class; exn_msg : string }.

(** The target of an [except] clause. *)
Inductive handler_class :=
  | H_socket_timeout | H_gaierror | H_ConnectionRefusedError | H_SSLError
  | H_OSError | H_JSONDecodeError | H_binascii_Error | H_ValueError
  | H_IndexError | H_Exception.

(** [isinstance(e, h)] along Python's class hierarchy: [socket.timeout],
    [socket.gaierror], [ConnectionRefusedError] and [ssl.SSLError] derive
    from [OSError]; [json.JSONDecodeError] and [binascii.Error] derive from
    [ValueError]. *)
Definition isinstance (e : exn) (h : handler_class) : bool :=
  match h, exn_class_of e with
  | H_Exception, _ => true
  | H_socket_timeout, SocketTimeout => true
  | H_gaierror, GaiError => true
  | H_ConnectionRefusedError, ConnectionRefusedError => true
  | H_SSLError, SSLError => true
  | H_OSError, (SocketTimeout | GaiError | ConnectionRefusedError | SSLError | OSError) => true
  | H_JSONDecodeError, JSONDecodeError => true
  | H_binascii_Error, BinasciiError => true
  | H_ValueError, (JSONDecodeError | BinasciiError | ValueError) => true
  | H_IndexError, IndexError => true
  | _, _ => false
  end.

(** The values [json.loads] and the parsers hand back. A float keeps only
    its printed form. *)
Inductive pyval :=
  | PyNone
  | PyBool (b : bool)
  | PyInt (z : Z)
  | PyFloat (repr : string)
  | PyStr (s : string)
  | PyList (l : list pyval)
  | PyDict (d : list (string * pyval)).

Definition of_opt_str (o : option string) : pyval :=
  match o with Some s => PyStr s | None => PyNone end.

Definition of_opt_int (o : option Z) : pyval :=
  match o with Some z => PyInt z | None => PyNone end.

(** Truth value of a Python object, as [if not ip:] tests it. *)
Definition truthy (v : pyval) : bool :=
  match v with
  | PyNone => false
  | PyBool b => b
  | PyInt z => negb (z =? 0)
  | PyFloat r => negb (String.eqb r "0.0" || String.eqb r "-0.0")
  | PyStr s => negb (String.eqb s "")
  | PyList l => match l with [] => false | _ => true end
  | PyDict d => match d with [] => false | _ => true end
  end.

(** [v == "s"] for a string literal. *)
Definition eq_str (v : pyval) (s : string) : bool :=
  match v with PyStr t => String.eqb t s | _ => false end.

(** [d.get(key, default)] on a dict given by its items. *)
Fixpoint dict_get (d : list (string * pyval)) (key : string) (default : pyval) : pyval :=
  match d with
  | [] => default
  | (k, v) :: d' => if String.eqb k key then v else dict_get d' key default
  end.

(** ** Strings and bytes *)

Definition byte (x : Z) : Prop := 0 <= x < 256.

Definition ord (a : ascii) : Z := Z.of_N (N_of_ascii a).
Definition chr (z : Z) : ascii := ascii_of_N (Z.to_N z).

Definition ords (s : string) : list Z := map ord (list_ascii_of_string s).
Definition chrs (l : list Z) : string := string_of_list_ascii (map chr l).

(** [sub in s] *)
Definition contains (sub s : string) : bool :=
  match String.index 0 sub s with Some _ => true | None => false end.

(** [s.split(sep, 1)[1]]: what follows the first [sep]; [IndexError] when
    [sep] does not occur. *)
Definition split1_snd (sep s : string) : exn + string :=
  match String.index 0 sep s with
  | Some i =>
      let k := (i + String.length sep)%nat in
      inr (String.substring k (String.length s - k) s)
  | None => inl (Exn IndexError "list index out of range")
  end.

(** ['=' * n] *)
Definition pad_eq (n : Z) : string := chrs (repeat 61 (Z.to_nat n)).

(** [str.encode('utf-8')] on code points below 256. *)
Definition utf8_encode (s : string) : list Z :=
  flat_map (fun c => if c <? 128 then [c]
                     else [Z.lor 192 (Z.shiftr c 6); Z.lor 128 (Z.land c 63)])
           (ords s).

Definition hex_digit (d : Z) : Z :=
  if d <? 10 then 48 + d else 87 + d.

(** [bytes.hex()] *)
Definition hex (b : list Z) : string :=
  chrs (flat_map (fun x => [hex_digit (Z.shiftr x 4); hex_digit (Z.land x 15)]) b).

(** [struct.pack('>H', n)] and [struct.pack('B', n)] for [n] in range. *)
Definition pack_H (n : Z) : list Z := [Z.land (Z.shiftr n 8) 255; Z.land n 255].
Definition pack_B (n : Z) : list Z := [Z.land n 255].

(** [int.to_bytes(n, 'big')] for a value that fits. *)
Fixpoint to_bytes_be (n : nat) (z : Z) : list Z :=
  match n with
  | O => []
  | S n' => to_bytes_be n' (Z.shiftr z 8) ++ [Z.land z 255]
  end.

(** [socket.inet_aton] applied to a dotted quad given by its four numbers. *)
Definition inet_aton (a b c d : Z) : list Z := [a; b; c; d].

(** [round(x / 1000)] for an integer [x]: Python rounds halves to even. *)
Definition round_div_1000 (x : Z) : Z :=
  let q := x / 1000 in
  let r := x mod 1000 in
  if r <? 500 then q
  else if 500 <? r then q + 1
  else if Z.even q then q else q + 1.

End Py.

(** ** [base64.b64decode] as the probes call it

    [base64.b64decode(s)] with a [str] argument encodes it as ASCII and
    hands it to [binascii.a2b_base64] in its default, non-strict mode:
    characters outside the standard alphabet are skipped, a pad ends the
    input once the current quad is complete, and leftover characters of an
    incomplete quad raise [binascii.Error]. *)

Module Base64.
Import Py.

Definition table_a2b_base64 (c : Z) : option Z :=
  if (65 <=? c) && (c <=? 90) then Some (c - 65)
  else if (97 <=? c) && (c <=? 122) then Some (c - 71)
  else if (48 <=? c) && (c <=? 57) then Some (c + 4)
  else if c =? 43 then Some 62
  else if c =? 47 then Some 63
  else None.

Definition BASE64_PAD : Z := 61.

(** The scanning loop; [None] is [binascii.Error]. *)
Fixpoint a2b_loop (ascii_data : list Z) (quad_pos : nat) (leftchar : Z) (pads : nat)
  : option (list Z) :=
  match ascii_data with
  | [] => if Nat.eqb quad_pos 0 then Some [] else None
  | this_ch :: rest =>
      if this_ch =? BASE64_PAD then
        if Nat.leb 2 quad_pos then
          if Nat.leb 4 (quad_pos + S pads) then Some []
          else a2b_loop rest quad_pos leftchar (S pads)
        else a2b_loop rest quad_pos leftchar pads
      else
        match table_a2b_base64 this_ch with
        | None => a2b_loop rest quad_pos leftchar pads
        | Some v =>
            match quad_pos with
            | 0%nat => a2b_loop rest 1 v 0
            | 1%nat =>
                cons (Z.land (Z.lor (Z.shiftl leftchar 2) (Z.shiftr v 4)) 255)
                  <$> a2b_loop rest 2 (Z.land v 15) 0
            | 2%nat =>
                cons (Z.land (Z.lor (Z.shiftl leftchar 4) (Z.shiftr v 2)) 255)
                  <$> a2b_loop rest 3 (Z.land v 3) 0
            | _ =>
                cons (Z.land (Z.lor (Z.shiftl leftchar 6) v) 255)
                  <$> a2b_loop rest 0 0 0
            end
        end
  end.

Definition a2b_base64 (data : list Z) : exn + list Z :=
  match a2b_loop data 0 0 0 with
  | Some b => inr b
  | None => inl (Exn BinasciiError "Incorrect padding")
  end.

(** [base64.b64decode(s)] for a [str] [s]. *)
Definition b64decode (s : string) : exn + list Z :=
  if forallb (fun c => c <? 128) (ords s) then a2b_base64 (ords s)
  else inl (Exn ValueError "string argument should contain only ASCII characters").



(** The encoder, as [base64.b64encode] produces the text the decoder is
    meant for. *)
Definition table_b2a_base64 (v : Z) : Z :=
  if v <? 26 then 65 + v
  else if v <? 52 then 71 + v
  else if v <? 62 then v - 4
  else if v =? 62 then 43 else 47.

(** The four sextets of a group of three bytes. *)
Definition s0 (x : Z) : Z := Z.shiftr x 2.
Definition s1 (x y : Z) : Z := Z.lor (Z.shiftl (Z.land x 3) 4) (Z.shiftr y 4).
Definition s2 (y z : Z) : Z := Z.lor (Z.shiftl (Z.land y 15) 2) (Z.shiftr z 6).
Definition s3 (z : Z) : Z := Z.land z 63.

Fixpoint b2a_data (b : list Z) : list Z :=
  match b with
  | [] => []
  | [x] =>
      [table_b2a_base64 (s0 x);
       table_b2a_base64 (Z.shiftl (Z.land x 3) 4)]
  | [x; y] =>
      [table_b2a_base64 (s0 x);
       table_b2a_base64 (s1 x y);
       table_b2a_base64 (Z.shiftl (Z.land y 15) 2)]
  | x :: y :: z :: rest =>
      table_b2a_base64 (s0 x)
      :: table_b2a_base64 (s1 x y)
      :: table_b2a_base64 (s2 y z)
      :: table_b2a_base64 (s3 z)
      :: b2a_data rest
  end.

(** Number of pad characters of the full encoding. *)
Definition b2a_npad (b : list Z) : nat :=
  match (length b mod 3)%nat with
  | 1%nat => 2
  | 2%nat => 1
  | _ => 0
  end.

(** [base64.b64encode(b)] with only [k] of its pad characters kept
    ([k = b2a_npad b] is the full encoding, [k = 0] is [rstrip("=")]). *)
Definition b64encode_pad (k : nat) (b : list Z) : string :=
  chrs (b2a_data b ++ repeat BASE64_PAD k).

Definition b64encode (b : list Z) : string := b64encode_pad (b2a_npad b) b.



End Base64.

(** ** The two regular expressions of [test_ss_link] *)

Module Re.
Import Py.

Definition colon : Z := 58.
Definition hash : Z := 35.
Definition at_sign : Z := 64.

Definition is_digit (c : Z) : bool := (48 <=? c) && (c <=? 57).

(** Longest prefix whose characters satisfy [p], and the rest. *)
Fixpoint span (p : Z -> bool) (l : list Z) : list Z * list Z :=
  match l with
  | [] => ([], [])
  | c :: l' =>
      if p c then let '(a, b) := span p l' in (c :: a, b) else ([], l)
  end.

(** The first [re.search] of [test_ss_link], for the pattern made of the
    literal ss:// followed by a group of any number of characters other
    than '#': group 1 of the leftmost match is the text after the first
    ss:// up to the first '#'. *)
Definition search_ss_payload (link : string) : option string :=
  match String.index 0 "ss://" link with
  | Some i =>
      let rest := String.substring (i + 5) (String.length link - (i + 5)) link in
      Some (chrs (fst (span (fun c => negb (c =? hash)) (ords rest))))
  | None => None
  end.

(** One or more non-colon characters (group 1), a colon, one or more
    digits (group 2), anchored at the head of [l].  The greedy run of
    non-colon characters has to stop at the first colon, because a shorter
    run is followed by a non-colon character. *)
Definition match_host_port (l : list Z) : option (list Z * list Z) :=
  match span (fun c => negb (c =? colon)) l with
  | (c :: host, _ :: rest) =>
      match span is_digit rest with
      | (d :: ds, _) => Some (c :: host, d :: ds)
      | _ => None
      end
  | _ => None
  end.

(** The same after an optional '@', anchored at the head of [l]: first
    with the '@' consumed, then, on backtracking, without. *)
Definition match_at (l : list Z) : option (list Z * list Z) :=
  match l with
  | c :: l' =>
      if c =? at_sign then
        match match_host_port l' with
        | Some g => Some g
        | None => match_host_port l
        end
      else match_host_port l
  | [] => None
  end.

Fixpoint search_from (l : list Z) : option (list Z * list Z) :=
  match match_at l with
  | Some g => Some g
  | None => match l with [] => None | _ :: l' => search_from l' end
  end.

(** The second [re.search] of [test_ss_link] (optional '@', host, colon,
    port digits): groups 1 and 2 of the leftmost match. *)
Definition search_host_port (s : string) : option (string * string) :=
  match search_from (ords s) with
  | Some (h, p) => Some (chrs h, chrs p)
  | None => None
  end.

End Re.

(** ** The world of one probe, and the monad the probes run in *)

Module Tester.
Import Py.

(** What [urlparse(link)] gives; reading [.port] may raise [ValueError]. *)
Record ParseResult := {
  username : option string;
  hostname : option string;
  port : exn + option Z;
  query : string
}.

(** Result of a blocking socket call: how long it blocked, in
    microseconds, and how it ended. *)
Record io := { took : Z; outcome : option exn }.

Record World := {
  clock0 : Z;                                         (* time at entry *)
  (* urllib.parse, codecs, json, builtins, uuid *)
  urlparse : string -> exn + ParseResult;
  parse_qs : string -> exn + gmap string (list string);
  utf8_decode_ignore : list Z -> string;              (* bytes.decode('utf-8', errors='ignore') *)
  json_loads : string -> exn + pyval;
  int_of_str : string -> exn + Z;                     (* int(s) *)
  int_of_float : string -> exn + Z;                   (* int(x) for a float *)
  repr_of : pyval -> string;                          (* str() of a list or dict *)
  uuid_hex_int : pyval -> exn + Z;                    (* the integer uuid.UUID reads from its argument *)
  (* ipaddress, socket, ssl *)
  ip_address : pyval -> bool;                         (* false: ValueError *)
  gethostbyname : pyval -> exn + string;
  socket_socket : option exn;                         (* socket.socket(AF_INET, SOCK_STREAM) *)
  connect : pyval -> pyval -> Z -> io;                (* sock.connect((ip, port)) under a timeout *)
  create_connection : pyval -> pyval -> Z -> io;      (* socket.create_connection((ip, port), timeout) *)
  wrap_socket : pyval -> Z -> io;                     (* context.wrap_socket(sock, server_hostname=sni) *)
  send : list Z -> Z -> io;                           (* sock.send(data) *)
  recv : Z -> io                                      (* sock.recv(1) *)
}.

(** Calls that leave the process, in the order they are made. The flag of
    a socket call tells whether it returned normally. *)
Inductive event :=
  | EvUrlparse (link : string)
  | EvB64decode (s : string)
  | EvSocket (ok : bool)
  | EvConnect (ip port : pyval) (ok : bool)
  | EvTls (sni : pyval) (ok : bool)
  | EvSend (data : list Z) (ok : bool)
  | EvRecv (ok : bool)
  | EvClosePlain
  | EvClose.

Record state := {
  clock : Z;            (* what time.time() would return now *)
  trace : list event;
  sock : bool           (* is the local variable [sock] bound to a socket? *)
}.

Definition M (A : Type) : Type := state -> (exn + A) * state.

Definition ret {A} (a : A) : M A := fun s => (inr a, s).
Definition raise {A} (e : exn) : M A := fun s => (inl e, s).
Definition bind {A B} (f : A -> M B) (m : M A) : M B :=
  fun s => match m s with
           | (inr a, s') => f a s'
           | (inl e, s') => (inl e, s')
           end.
Definition lift {A} (r : exn + A) : M A := fun s => (r, s).

#[global] Instance M_ret : MRet M := @ret.
#[global] Instance M_bind : MBind M := @bind.

Definition log (e : event) : M unit :=
  fun s => (inr tt, {| clock := clock s; trace := trace s ++ [e]; sock := sock s |}).
Definition tick (d : Z) : M unit :=
  fun s => (inr tt, {| clock := clock s + d; trace := trace s; sock := sock s |}).
Definition time_time : M Z := fun s => (inr (clock s), s).
Definition bind_sock : M unit :=
  fun s => (inr tt, {| clock := clock s; trace := trace s; sock := true |}).

Definition is_ok (o : option exn) : bool :=
  match o with None => true | Some _ => false end.

Definition of_outcome (o : option exn) : M unit :=
  match o with None => ret tt | Some e => raise e end.

(** A blocking call: time passes, the call is recorded, and it returns or
    raises. *)
Definition blocking (r : io) (ev : bool -> event) : M unit :=
  tick (took r) ;; log (ev (is_ok (outcome r))) ;; of_outcome (outcome r).

(** [l[0]] *)
Definition index0 {A} (l : list A) : exn + A :=
  match l with
  | x :: _ => inr x
  | [] => inl (Exn IndexError "list index out of range")
  end.

(** ** Probe results *)

Inductive status_t := alive | dead.

Record result := {
  link : string;
  status : status_t;
  ping_ms : option Z;
  error : option string
}.

Definition set_error (r : result) (msg : string) : result :=
  {| link := link r; status := status r; ping_ms := ping_ms r; error := Some msg |}.

Definition set_alive (r : result) (ms : Z) : result :=
  {| link := link r; status := alive; ping_ms := Some ms; error := error r |}.

Section Probes.

Variable w : World.

(** [str(v)], as an f-string formats it. *)
Definition py_str (v : pyval) : string :=
  match v with
  | PyNone => "None"
  | PyBool true => "True"
  | PyBool false => "False"
  | PyInt z => pretty z
  | PyFloat r => r
  | PyStr s => s
  | _ => repr_of w v
  end.

(** [int(v)] *)
Definition py_int (v : pyval) : exn + Z :=
  match v with
  | PyInt z => inr z
  | PyBool b => inr (if b then 1 else 0)
  | PyStr s => int_of_str w s
  | PyFloat r => int_of_float w r
  | _ => inl (Exn TypeError "int() argument must be a string, a bytes-like object or a real number")
  end.

(** [v.get(key, default)]: only a dict has [get]. *)
Definition py_get (v : pyval) (key : string) (default : pyval) : exn + pyval :=
  match v with
  | PyDict d => inr (dict_get d key default)
  | _ => inl (Exn AttributeError "object has no attribute 'get'")
  end.

(** [uuid.UUID(v).bytes]: the constructor insists on a 128-bit value and
    [bytes] is its 16-byte big-endian form. *)
Definition uuid_bytes (v : pyval) : exn + list Z :=
  match uuid_hex_int w v with
  | inr i =>
      if (0 <=? i) && (i <? 2 ^ 128) then inr (to_bytes_be 16 i)
      else inl (Exn ValueError "int is out of range (need a 128-bit value)")
  | inl e => inl e
  end.

(** [sock.settimeout(timeout)] *)
Definition settimeout (timeout : Z) : M unit :=
  if timeout <? 0 then raise (Exn ValueError "Timeout value out of range") else ret tt.

Definition resolve_domain (domain : pyval) : M pyval :=
  if ip_address w domain then ret domain
  else
    match gethostbyname w domain with
    | inr ip => ret (PyStr ip)
    | inl e => if isinstance e H_gaierror then ret PyNone else raise e
    end.

Definition parse_qs_safely (query_str : string) : gmap string (list string) :=
  match parse_qs w query_str with
  | inr d => d
  | inl _ => ∅
  end.

(** [params.get(key, [dflt])[0]] *)
Definition param0 (params : gmap string (list string)) (key : string) (dflt : pyval)
  : exn + pyval :=
  match params !! key with
  | Some l => index0 (map PyStr l)
  | None => inr dflt
  end.

Definition initial (lnk : string) : result :=
  {| link := lnk; status := dead; ping_ms := None; error := None |}.

Definition dns_failed (r : result) (server : pyval) : result :=
  set_error r ("DNS resolution failed for: " +:+ py_str server).

(** The [finally] clause: [if sock: sock.close()]. *)
Definition finally (s : state) : list event :=
  if sock s then trace s ++ [EvClose] else trace s.

(** An [except] clause: the classes it names and the text it stores in
    [result["error"]]. *)
Definition clause : Type := list handler_class * (exn -> string).

(** The first clause that matches handles the exception; [None] when no
    clause matches and the exception leaves the function. *)
Fixpoint except (clauses : list clause) (e : exn) : option string :=
  match clauses with
  | [] => None
  | (classes, msg) :: rest =>
      if existsb (isinstance e) classes then Some (msg e) else except rest e
  end.

(** [try: body  except ...: result["error"] = ...  finally: ...] followed
    by [return result]. *)
Definition run_probe (lnk : string) (body : M result) (clauses : list clause)
  : (exn + result) * list event :=
  let '(r, s) := body {| clock := clock0 w; trace := []; sock := false |} in
  (match r with
   | inr res => inr res
   | inl e =>
       match except clauses e with
       | Some msg => inr (set_error (initial lnk) msg)
       | None => inl e
       end
   end, finally s).

(** *** VLESS *)

Definition vless_handshake_packet (uuid_b : list Z) : list Z :=
  let version := [0] in
  let addon_length := [0] in
  let command := [1] in
  let dest_port := pack_H 80 in
  let addr_type := [1] in
  let dest_addr := inet_aton 8 8 8 8 in
  version ++ uuid_b ++ addon_length ++ command ++ dest_port ++ addr_type ++ dest_addr.

Definition vless_body (lnk : string) (timeout : Z) : M result :=
  log (EvUrlparse lnk) ;;
  parsed ← lift (urlparse w lnk);
  let vless_uuid := of_opt_str (username parsed) in
  let server := of_opt_str (hostname parsed) in
  port ← lift (port parsed);
  let params := parse_qs_safely (query parsed) in
  security ← lift (param0 params "security" (PyStr "none"));
  let is_tls := eq_str security "tls" || eq_str security "xtls" in
  ip ← resolve_domain server;
  if negb (truthy ip) then ret (dns_failed (initial lnk) server)
  else
    start_time ← time_time;
    log (EvSocket (is_ok (socket_socket w))) ;;
    of_outcome (socket_socket w) ;;
    bind_sock ;;
    settimeout timeout ;;
    blocking (connect w ip (of_opt_int port) timeout) (EvConnect ip (of_opt_int port)) ;;
    (if is_tls then
       sni ← lift (param0 params "sni" server);
       blocking (wrap_socket w sni timeout) (EvTls sni)
     else ret tt) ;;
    uuid_b ← lift (uuid_bytes vless_uuid);
    let handshake_packet := vless_handshake_packet uuid_b in
    blocking (send w handshake_packet timeout) (EvSend handshake_packet) ;;
    blocking (recv w timeout) EvRecv ;;
    end_time ← time_time;
    ret (set_alive (initial lnk) (round_div_1000 (end_time - start_time))).

Definition vless_handlers : list clause :=
  [ ([H_socket_timeout], fun _ => "Connection or handshake timed out");
    ([H_ConnectionRefusedError; H_OSError], fun e => "Connection failed: " +:+ exn_msg e);
    ([H_Exception], fun e => "An unexpected error occurred: " +:+ exn_msg e) ].

Definition test_vless_link_run (lnk : string) (timeout : Z)
  : (exn + result) * list event :=
  run_probe lnk (vless_body lnk timeout) vless_handlers.

Definition test_vless_link (lnk : string) (timeout : Z) : exn + result :=
  fst (test_vless_link_run lnk timeout).

(** The padding idiom of [test_vmess_link] and [test_ss_link]:
    [padded_part = encoded_part + '=' * (-len(encoded_part) % 4)], then
    [base64.b64decode(padded_part).decode('utf-8', errors='ignore')]. *)
Definition decode_padded (encoded_part : string) : M string :=
  let padded_part :=
    encoded_part +:+ pad_eq ((- Z.of_nat (String.length encoded_part)) mod 4) in
  log (EvB64decode padded_part) ;;
  decoded ← lift (Base64.b64decode padded_part);
  ret (utf8_decode_ignore w decoded).

(** *** VMess *)

(** The fields [test_vmess_link] reads from the decoded configuration. *)
Definition vmess_fields (config : pyval) : exn + (pyval * Z * bool) :=
  match py_get config "add" PyNone with
  | inl e => inl e
  | inr server =>
      match py_get config "port" (PyInt 0) with
      | inl e => inl e
      | inr port_v =>
          match py_int port_v with
          | inl e => inl e
          | inr port =>
              match py_get config "tls" PyNone with
              | inl e => inl e
              | inr tls_v => inr (server, port, eq_str tls_v "tls" || eq_str tls_v "xtls")
              end
          end
      end
  end.

(** Lines 126 to 133: from the link to server, port and TLS flag. *)
Definition vmess_endpoint (lnk : string) : M (pyval * pyval * Z * bool) :=
  encoded_part ← lift (split1_snd "://" lnk);
  config_str ← decode_padded encoded_part;
  config ← lift (json_loads w config_str);
  fields ← lift (vmess_fields config);
  let '(server, port, is_tls) := (fields : pyval * Z * bool) in
  ret (config, server, port, is_tls).

Definition vmess_body (lnk : string) (timeout : Z) : M result :=
  endpoint ← vmess_endpoint lnk;
  let '(config, server, port, is_tls) := (endpoint : pyval * pyval * Z * bool) in
  ip ← resolve_domain server;
  if negb (truthy ip) then ret (dns_failed (initial lnk) server)
  else
    start_time ← time_time;
    log (EvSocket (is_ok (socket_socket w))) ;;
    of_outcome (socket_socket w) ;;
    bind_sock ;;
    settimeout timeout ;;
    blocking (connect w ip (PyInt port) timeout) (EvConnect ip (PyInt port)) ;;
    (if is_tls then
       sni ← lift (py_get config "sni" server);
       blocking (wrap_socket w sni timeout) (EvTls sni)
     else ret tt) ;;
    end_time ← time_time;
    ret (set_alive (initial lnk) (round_div_1000 (end_time - start_time))).

Definition vmess_handlers : list clause :=
  [ ([H_JSONDecodeError; H_binascii_Error], fun _ => "Invalid Base64 or JSON in link");
    ([H_socket_timeout], fun _ => "Connection timed out");
    ([H_ConnectionRefusedError; H_OSError], fun e => "Connection failed: " +:+ exn_msg e);
    ([H_Exception], fun e => "An unexpected error occurred: " +:+ exn_msg e) ].

Definition test_vmess_link_run (lnk : string) (timeout : Z)
  : (exn + result) * list event :=
  run_probe lnk (vmess_body lnk timeout) vmess_handlers.

Definition test_vmess_link (lnk : string) (timeout : Z) : exn + result :=
  fst (test_vmess_link_run lnk timeout).

(** *** Trojan *)

(** [password.encode('utf-8').hex()]; a missing password has no [encode]. *)
Definition trojan_password_hash (password : option string) : exn + string :=
  match password with
  | Some p => inr (hex (utf8_encode p))
  | None => inl (Exn AttributeError "'NoneType' object has no attribute 'encode'")
  end.

Definition trojan_handshake_packet (password_hash : string) : list Z :=
  let crlf := [13; 10] in
  let command := [1] in
  let addr_type := [3] in
  let dest_addr := ords "v1.v2ray.com" in
  let dest_len := pack_B (Z.of_nat (length dest_addr)) in
  let dest_port := pack_H 80 in
  utf8_encode password_hash ++ crlf ++ command ++ addr_type ++ dest_len
    ++ dest_addr ++ dest_port ++ crlf.

(** Leaving the [with ... as plain_sock] block closes [plain_sock], on
    either way out. *)
Definition with_plain_sock {A} (body : M A) : M A :=
  fun s =>
    let '(r, s') := body s in
    (r, {| clock := clock s'; trace := trace s' ++ [EvClosePlain]; sock := sock s' |}).

Definition trojan_body (lnk : string) (timeout : Z) : M result :=
  log (EvUrlparse lnk) ;;
  parsed ← lift (urlparse w lnk);
  let password := username parsed in
  let server := of_opt_str (hostname parsed) in
  port ← lift (port parsed);
  let params := parse_qs_safely (query parsed) in
  ip ← resolve_domain server;
  if negb (truthy ip) then ret (dns_failed (initial lnk) server)
  else
    start_time ← time_time;
    sni ← lift (param0 params "sni" server);
    blocking (create_connection w ip (of_opt_int port) timeout)
             (EvConnect ip (of_opt_int port)) ;;
    with_plain_sock (
      blocking (wrap_socket w sni timeout) (EvTls sni) ;;
      bind_sock ;;
      password_hash ← lift (trojan_password_hash password);
      let handshake_packet := trojan_handshake_packet password_hash in
      blocking (send w handshake_packet timeout) (EvSend handshake_packet) ;;
      blocking (recv w timeout) EvRecv) ;;
    end_time ← time_time;
    ret (set_alive (initial lnk) (round_div_1000 (end_time - start_time))).

Definition trojan_handlers : list clause :=
  [ ([H_socket_timeout], fun _ => "Connection or handshake timed out");
    ([H_ConnectionRefusedError; H_OSError; H_SSLError],
     fun e => "Connection or TLS failed: " +:+ exn_msg e);
    ([H_Exception], fun e => "An unexpected error occurred: " +:+ exn_msg e) ].

Definition test_trojan_link_run (lnk : string) (timeout : Z)
  : (exn + result) * list event :=
  run_probe lnk (trojan_body lnk timeout) trojan_handlers.

Definition test_trojan_link (lnk : string) (timeout : Z) : exn + result :=
  fst (test_trojan_link_run lnk timeout).

(** *** Shadowsocks *)

(** Lines 242 to 257: the branch on ["@" in link]. *)
Definition ss_endpoint (lnk : string) : M (pyval * pyval) :=
  if contains "@" lnk then
    log (EvUrlparse lnk) ;;
    parsed ← lift (urlparse w lnk);
    let server := of_opt_str (hostname parsed) in
    port ← lift (port parsed);
    ret (server, of_opt_int port)
  else
    match Re.search_ss_payload lnk with
    | None => raise (Exn AttributeError "'NoneType' object has no attribute 'group'")
    | Some encoded_part =>
        decoded_str ← decode_padded encoded_part;
        match Re.search_host_port decoded_str with
        | Some (g1, g2) =>
            port ← lift (int_of_str w g2);
            ret (PyStr g1, PyInt port)
        | None =>
            raise (Exn ValueError "Could not parse server/port from Base64 SS link")
        end
    end.

Definition ss_body (lnk : string) (timeout : Z) : M result :=
  endpoint ← ss_endpoint lnk;
  let '(server, port) := (endpoint : pyval * pyval) in
  ip ← resolve_domain server;
  if negb (truthy ip) then ret (dns_failed (initial lnk) server)
  else
    start_time ← time_time;
    log (EvSocket (is_ok (socket_socket w))) ;;
    of_outcome (socket_socket w) ;;
    bind_sock ;;
    settimeout timeout ;;
    blocking (connect w ip port timeout) (EvConnect ip port) ;;
    end_time ← time_time;
    ret (set_alive (initial lnk) (round_div_1000 (end_time - start_time))).

Definition ss_handlers : list clause :=
  [ ([H_ValueError; H_IndexError; H_binascii_Error],
     fun _ => "Invalid or unparsable SS link format");
    ([H_socket_timeout], fun _ => "Connection timed out");
    ([H_ConnectionRefusedError; H_OSError], fun e => "Connection failed: " +:+ exn_msg e);
    ([H_Exception], fun e => "An unexpected error occurred: " +:+ exn_msg e) ].

Definition test_ss_link_run (lnk : string) (timeout : Z)
  : (exn + result) * list event :=
  run_probe lnk (ss_body lnk timeout) ss_handlers.

Definition test_ss_link (lnk : string) (timeout : Z) : exn + result :=
  fst (test_ss_link_run lnk timeout).

End Probes.

(** ** The orchestrator *)

Definition test_function_map : gmap string (World -> string -> Z -> exn + result) :=
  list_to_map [("vless", test_vless_link); ("vmess", test_vmess_link);
               ("trojan", test_trojan_link); ("ss", test_ss_link)].

(** [asyncio.gather] over the tasks: the results in the order of the tasks,
    or the exception of a task that raised. *)
Fixpoint gather (tasks : list (exn + result)) : exn + list result :=
  match tasks with
  | [] => inr []
  | inl e :: _ => inl e
  | inr r :: rest =>
      match gather rest with
      | inl e => inl e
      | inr rs => inr (r :: rs)
      end
  end.

(** One turn of the loop over [categorized_links.items()]. The tasks of a
    protocol run in worker threads, each against the world it meets:
    [envs protocol i] is the world of the [i]-th link of [protocol]. *)
Definition test_protocol (envs : string -> nat -> World) (timeout : Z)
    (protocol : string) (links : list string)
    (acc : exn + gmap string (list result)) : exn + gmap string (list result) :=
  match acc with
  | inl e => inl e
  | inr all_results =>
      match links with
      | [] => inr all_results
      | _ =>
          match test_function_map !! protocol with
          | None => inr all_results
          | Some test_function =>
              let tasks :=
                imap (fun i lnk => test_function (envs protocol i) lnk timeout) links in
              match gather tasks with
              | inl e => inl e
              | inr link_results => inr (<[protocol := link_results]> all_results)
              end
          end
      end
  end.

(** [ThreadPoolExecutor(max_workers)] raises [ValueError] unless
    [max_workers] is positive. *)
Definition test_links_ping (envs : string -> nat -> World)
    (categorized_links : gmap string (list string)) (max_workers timeout : Z)
  : exn + gmap string (list result) :=
  if max_workers <=? 0 then inl (Exn ValueError "max_workers must be greater than 0")
  else map_fold (test_protocol envs timeout) (inr ∅) categorized_links.

End Tester.

(** ** Vocabulary of the properties *)

Module Spec.
Import Py Tester.

(** [wp m Q E s]: started in [s], [m] either returns [a] in a state with
    [Q a] or raises [e] in a state with [E e]. *)
Definition wp {A} (m : M A) (Q : A -> state -> Prop) (E : exn -> state -> Prop)
    (s : state) : Prop :=
  match m s with
  | (inr a, s') => Q a s'
  | (inl e, s') => E e s'
  end.

Definition after (s : state) (d : Z) (ev : event) : state :=
  {| clock := clock s + d; trace := trace s ++ [ev]; sock := sock s |}.

Definition logged (s : state) (ev : event) : state :=
  {| clock := clock s; trace := trace s ++ [ev]; sock := sock s |}.

Definition bound (s : state) : state :=
  {| clock := clock s; trace := trace s; sock := true |}.

(** A probe result is terminal for [lnk]: it carries the link, and is
    either dead with a reason and no latency, or alive with a latency and
    no reason. *)
Definition terminal (lnk : string) (r : result) : Prop :=
  link r = lnk /\
  ((status r = dead /\ ping_ms r = None /\ exists msg, error r = Some msg) \/
   (status r = alive /\ error r = None /\ exists ms, ping_ms r = Some ms)).

Definition ping_within (B : Z) (r : result) : Prop :=
  forall ms, ping_ms r = Some ms -> 0 <= ms <= B.

(** A socket call that returns does so within the timeout set on the
    socket, and time does not run backwards while it blocks. *)
Definition within (timeout : Z) (r : io) : Prop :=
  outcome r = None -> 0 <= took r <= timeout * 1000000.

Definition timely (w : World) (timeout : Z) : Prop :=
  (forall ip port, within timeout (connect w ip port timeout)) /\
  (forall ip port, within timeout (create_connection w ip port timeout)) /\
  (forall sni, within timeout (wrap_socket w sni timeout)) /\
  (forall data, within timeout (send w data timeout)) /\
  within timeout (recv w timeout).

(** What every probe promises about its result; [k] counts the socket
    calls between the two readings of the clock. *)
Definition returns_ok (w : World) (lnk : string) (timeout k : Z)
    (out : exn + result) : Prop :=
  exists r, out = inr r /\ terminal lnk r /\
            (timely w timeout -> ping_within (k * timeout * 1000) r).

(** The four protocol tags the orchestrator has a test function for. *)
Definition supported_tags : list string := ["vless"; "vmess"; "trojan"; "ss"].

(** What the orchestrator stores under [protocol] for the list [links]:
    nothing for an empty list or a tag without test function, otherwise
    the gathered results. *)
Definition results_for (envs : string -> nat -> World) (timeout : Z)
    (protocol : string) (links : list string) : option (list result) :=
  match links with
  | [] => None
  | _ =>
      match test_function_map !! protocol with
      | None => None
      | Some test_function =>
          match gather (imap (fun i lnk => test_function (envs protocol i) lnk timeout) links) with
          | inr rs => Some rs
          | inl _ => None
          end
      end
  end.

(** Number of results whose [link] field is [C]. *)
Definition count_link (C : string) (rs : list result) : nat :=
  length (filter (fun r => link r = C) rs).

(** Number of times [C] was submitted. *)
Definition count_submitted (C : string) (links : list string) : nat :=
  length (filter (fun l => l = C) links).



(** The state a probe starts in. *)
Definition start (w : World) : state :=
  {| clock := clock0 w; trace := []; sock := false |}.

End Spec.

(** ** Concrete worlds used to run the probes *)

Module Scenario.
Import Py Tester.

Definition ok (d : Z) : io := {| took := d; outcome := None |}.
Definition fails (d : Z) (e : exn) : io := {| took := d; outcome := Some e |}.

(** [int(s)] on a string of decimal digits. *)
Definition decimal (s : string) : exn + Z :=
  match ords s with
  | [] => inl (Exn ValueError "invalid literal for int() with base 10")
  | ds =>
      if forallb Re.is_digit ds
      then inr (fold_left (fun acc d => 10 * acc + (d - 48)) ds 0)
      else inl (Exn ValueError "invalid literal for int() with base 10")
  end.

(** A world in which every host resolves to 203.0.113.7 and a socket can
    always be created; what the parsers return and how the four socket
    calls end is left to the scenario. *)
Definition world (up : string -> exn + ParseResult) (qs : gmap string (list string))
    (js : string -> exn + pyval) (uuid : exn + Z) (conn tls snd rcv : io) : World :=
  {| clock0 := 1700000000000000;
     urlparse := up;
     parse_qs := fun _ => inr qs;
     utf8_decode_ignore := chrs;
     json_loads := js;
     int_of_str := decimal;
     int_of_float := fun _ => inl (Exn ValueError "cannot convert float to integer");
     repr_of := fun _ => "<object>";
     uuid_hex_int := fun _ => uuid;
     ip_address := fun _ => false;
     gethostbyname := fun _ => inr "203.0.113.7";
     socket_socket := None;
     connect := fun _ _ _ => conn;
     create_connection := fun _ _ _ => conn;
     wrap_socket := fun _ _ => tls;
     send := fun _ _ => snd;
     recv := fun _ => rcv |}.

Definition no_json (s : string) : exn + pyval :=
  inl (Exn JSONDecodeError "Expecting value: line 1 column 1 (char 0)").

Definition bad_uuid : exn + Z :=
  inl (Exn ValueError "badly formed hexadecimal UUID string").

(** [urlparse] of [scheme://user@host:port]. *)
Definition parsed (user host : string) (p : Z) : string -> exn + ParseResult :=
  fun _ => inr {| username := Some user; hostname := Some host;
                  port := inr (Some p); query := "" |}.

(** [urlparse] of a link whose port is out of range: reading [.port]
    raises. *)
Definition parsed_bad_port (user host : string) : string -> exn + ParseResult :=
  fun _ => inr {| username := Some user; hostname := Some host;
                  port := inl (Exn ValueError "Port out of range 0-65535");
                  query := "" |}.

Definition timed_out : exn := Exn SocketTimeout "timed out".

(** A Trojan server that takes three seconds to accept the connection,
    three more for TLS, and answers the handshake after 0.2 s. *)
Definition slow_trojan : World :=
  world (parsed "abc" "example.com" 443) ∅ no_json bad_uuid
        (ok 3000000) (ok 3000000) (ok 10) (ok 200000).

Definition trojan_abc : string := "trojan://abc@example.com:443".

(** A batch: two Trojan candidates, an empty Shadowsocks list and a tag
    without test function. *)
Definition batch : gmap string (list string) :=
  <["trojan" := [trojan_abc; "trojan://abc@example.org:443"]]>
    (<["ss" := []]> (<["http" := ["http://example.com"]]> ∅)).

Definition batch_envs : string -> nat -> World := fun _ _ => slow_trojan.

(** A VLESS server without TLS that answers after 20.5 ms. *)
Definition vless_uuid_int : Z := 0xb831381d63244d53ad4f8cda48b30811.

Definition vless_server : World :=
  world (parsed "b831381d-6324-4d53-ad4f-8cda48b30811" "example.com" 443) ∅
        no_json (inr vless_uuid_int) (ok 30000) (ok 0) (ok 10) (ok 20500).

Definition vless_link : string :=
  "vless://b831381d-6324-4d53-ad4f-8cda48b30811@example.com:443".


Definition tcp_stalls : World :=
  world (parsed "abc" "example.com" 443) ∅ no_json bad_uuid
        (fails 5000000 timed_out) (ok 30000) (ok 10) (ok 200000).

(** The bytes of a JSON object with the members add = example.com,
    port = 443, tls = tls and ps = abc?, written without spaces. *)
Definition quoted (s : string) : list Z := [34] ++ ords s ++ [34].

Definition vmess_json : list Z :=
  ords "{" ++ quoted "add" ++ ords ":" ++ quoted "example.com" ++ ords ","
    ++ quoted "port" ++ ords ":443," ++ quoted "tls" ++ ords ":" ++ quoted "tls"
    ++ ords "," ++ quoted "ps" ++ ords ":" ++ quoted "abc?" ++ ords "}".

Definition vmess_config_items : list (string * pyval) :=
  [("add", PyStr "example.com"); ("port", PyInt 443);
   ("tls", PyStr "tls"); ("ps", PyStr "abc?")].

Definition vmess_json_loads (s : string) : exn + pyval :=
  if String.eqb s (chrs vmess_json) then inr (PyDict vmess_config_items) else no_json s.

(** A VMess server with TLS; its [json.loads] reads the object above. *)
Definition vmess_server : World :=
  world (parsed "" "" 0) ∅ vmess_json_loads bad_uuid
        (ok 30000) (ok 40000) (ok 10) (ok 10).


(** A world whose [urlparse] finds the port of the link out of range. *)
Definition port_out_of_range : World :=
  world (parsed_bad_port "x" "h") ∅ no_json bad_uuid
        (ok 30000) (ok 30000) (ok 10) (ok 20500).

End Scenario.

(** ** The helpers of [utils.py] and the bookkeeping of [main.py] *)

Module Utils.
Import Py Tester.

(** What [utils.py] asks of the library beyond the fields of [World]. *)
Record Lib := {
  scheme : string -> string;                     (* urlparse(link).scheme, when urlparse returns *)
  json_dumps : pyval -> exn + string;            (* json.dumps(config, separators=(',', ':')) *)
  with_fragment : string -> string -> exn + string
    (* urlunparse(urlparse(link)._replace(fragment=quote(new_fragment))) *)
}.

#[global] Instance exn_bind : MBind (sum exn) :=
  fun A B f r => match r with inr a => f a | inl e => inl e end.

(** [s.rstrip("=")] on code points. *)
Fixpoint rstrip_pad (l : list Z) : list Z :=
  match l with
  | [] => []
  | c :: l' =>
      match rstrip_pad l' with
      | [] => if c =? 61 then [] else [c]
      | r => c :: r
      end
  end.

Definition rstrip_eq (s : string) : string := chrs (rstrip_pad (ords s)).

(** [d[key] = v] on a dict given by its items: an existing key keeps its
    place. *)
Fixpoint dict_set (d : list (string * pyval)) (key : string) (v : pyval)
  : list (string * pyval) :=
  match d with
  | [] => [(key, v)]
  | (k, x) :: d' =>
      if String.eqb k key then (k, v) :: d' else (k, x) :: dict_set d' key v
  end.

(** [config[key] = v]: only a dict takes a string subscript. *)
Definition set_item (config : pyval) (key : string) (v : pyval) : exn + pyval :=
  match config with
  | PyDict d => inr (PyDict (dict_set d key v))
  | _ => inl (Exn TypeError "object does not support item assignment")
  end.

(** The word characters of [re] among the code points below 256: digits,
    letters, the underscore, and the Latin-1 letters and numerals. *)
Definition is_word (c : Z) : bool :=
  ((48 <=? c) && (c <=? 57)) || ((65 <=? c) && (c <=? 90)) || (c =? 95)
  || ((97 <=? c) && (c <=? 122))
  || (c =? 170) || (c =? 178) || (c =? 179) || (c =? 181) || (c =? 185) || (c =? 186)
  || ((188 <=? c) && (c <=? 190)) || ((192 <=? c) && (c <=? 214))
  || ((216 <=? c) && (c <=? 246)) || ((248 <=? c) && (c <=? 255)).

(** The class of the second [re.sub]: a word character, '-', '_' or '.'. *)
Definition is_filename_char (c : Z) : bool :=
  is_word c || (c =? 45) || (c =? 95) || (c =? 46).

Fixpoint starts_with (p l : list Z) : bool :=
  match p, l with
  | [], _ => true
  | a :: p', b :: l' => (a =? b) && starts_with p' l'
  | _ :: _, [] => false
  end.

(** The first [re.sub]: every match of http:// or https://, found from
    left to right without overlap, is removed; [skip] counts the
    characters of the current match still to drop. *)
Fixpoint strip_http (skip : nat) (l : list Z) : list Z :=
  match l with
  | [] => []
  | c :: l' =>
      match skip with
      | S k => strip_http k l'
      | O =>
          if starts_with (ords "https://") l then strip_http 7 l'
          else if starts_with (ords "http://") l then strip_http 6 l'
          else c :: strip_http 0 l'
      end
  end.

Definition create_sanitized_filename (url : string) : string :=
  let sanitized := strip_http 0 (ords url) in
  let sanitized := map (fun c => if is_filename_char c then c else 95) sanitized in
  chrs sanitized +:+ ".txt".

Section utils.

Variable w : World.
Variable lib : Lib.

(** The four lines the three helpers share: split at the scheme, pad,
    decode base64 and UTF-8, parse JSON. *)
Definition decode_config (uri : string) : exn + pyval :=
  encoded_part ← split1_snd "://" uri;
  let padded_part :=
    encoded_part +:+ pad_eq ((- Z.of_nat (String.length encoded_part)) mod 4) in
  decoded ← Base64.b64decode padded_part;
  json_loads w (utf8_decode_ignore w decoded).

Definition fingerprint_body (uri : string) : exn + string :=
  if String.prefix "vmess://" uri then
    config ← decode_config uri;
    add ← py_get config "add" PyNone;
    port ← py_get config "port" PyNone;
    id ← py_get config "id" PyNone;
    inr ("vmess_" +:+ py_str w add +:+ "_" +:+ py_str w port +:+ "_" +:+ py_str w id)
  else
    parsed ← urlparse w uri;
    port ← Tester.port parsed;
    inr (scheme lib uri +:+ "_" +:+ py_str w (of_opt_str (username parsed))
         +:+ "@" +:+ py_str w (of_opt_str (hostname parsed))
         +:+ ":" +:+ py_str w (of_opt_int port)).

(** [try: ... except Exception: return uri] *)
Definition get_link_fingerprint (uri : string) : exn + string :=
  match fingerprint_body uri with
  | inr s => inr s
  | inl e =>
      match except [([H_Exception], fun _ => uri)] e with
      | Some s => inr s
      | None => inl e
      end
  end.

(** One turn of the loop of [categorize_links]. *)
Definition categorize_step (acc : exn + gmap string (list string)) (lnk : string)
  : exn + gmap string (list string) :=
  match acc with
  | inl e => inl e
  | inr categorized =>
      match urlparse w lnk with
      | inr _ =>
          let protocol := scheme lib lnk in
          if String.eqb protocol "" then inr categorized
          else inr (<[protocol := (default [] (categorized !! protocol) ++ [lnk])%list]> categorized)
      | inl e =>
          match except [([H_ValueError; H_IndexError], fun _ => "")] e with
          | Some _ => inr categorized
          | None => inl e
          end
      end
  end.

Definition categorize_links (links : list string) : exn + gmap string (list string) :=
  fold_left categorize_step links (inr ∅).

Definition remark_body (lnk new_name : string) (ping : pyval) : exn + string :=
  let ping_str := "| Ping: " +:+ py_str w ping +:+ "ms" in
  if String.prefix "vmess://" lnk then
    config ← decode_config lnk;
    config' ← set_item config "ps" (PyStr (new_name +:+ " " +:+ ping_str));
    new_json_str ← json_dumps lib config';
    let new_encoded_part := rstrip_eq (Base64.b64encode (utf8_encode new_json_str)) in
    inr ("vmess://" +:+ new_encoded_part)
  else
    with_fragment lib lnk (new_name +:+ " " +:+ ping_str).

(** [try: ... except Exception: return link] *)
Definition format_and_replace_remark (lnk new_name : string) (ping : pyval)
  : exn + string :=
  match remark_body lnk new_name ping with
  | inr s => inr s
  | inl e =>
      match except [([H_Exception], fun _ => lnk)] e with
      | Some s => inr s
      | None => inl e
      end
  end.

(** The loop of [main] over what the scrapers found: a link is recorded
    under its fingerprint unless the fingerprint is taken. *)
Definition record_step (acc : exn + gmap string (string * string))
    (found : string * string) : exn + gmap string (string * string) :=
  all_found_links ← acc;
  let '(lnk, source_url) := found in
  fingerprint ← get_link_fingerprint lnk;
  match all_found_links !! fingerprint with
  | Some _ => inr all_found_links
  | None => inr (<[fingerprint := (lnk, source_url)]> all_found_links)
  end.

Definition record_found (all_found_links : gmap string (string * string))
    (scraper_result : list (string * string)) : exn + gmap string (string * string) :=
  fold_left record_step scraper_result (inr all_found_links).

End utils.

(** [list(dict.fromkeys(l))]: the first occurrence of every element, in
    the order of first occurrence. *)
Definition dict_fromkeys (l : list string) : list string :=
  fold_left (fun keys x => if existsb (String.eqb x) keys then keys else keys ++ [x])%list
            l [].

(** [l[start:]] for an integer [start], with the index adjusted as a slice
    does: a negative index counts from the end and is clamped at the
    head, an index past the end is the end. *)
Definition slice_from {A} (start : Z) (l : list A) : list A :=
  let len := Z.of_nat (length l) in
  let start := if start <? 0 then Z.max (start + len) 0 else Z.min start len in
  drop (Z.to_nat start) l.

(** The two lines of [main] that merge the stored links of a source with
    the new ones and cap them:
    [unique_links = list(dict.fromkeys(existing_links + new_links))],
    [capped_links = unique_links[-SOURCE_LINK_LIMIT:]]. *)
Definition cap_links (SOURCE_LINK_LIMIT : Z) (existing_links new_links : list string)
  : list string :=
  let unique_links := dict_fromkeys (existing_links ++ new_links) in
  slice_from (- SOURCE_LINK_LIMIT) unique_links.

End Utils.

(** ** Vocabulary of the further properties *)

Module Checks.
Import Py Tester Spec Utils.

(** Events of the socket layer. *)
Definition is_socket_event (ev : event) : bool :=
  match ev with
  | EvUrlparse _ | EvB64decode _ => false
  | _ => true
  end.

Definition is_close (ev : event) : bool :=
  match ev with EvClose => true | _ => false end.

Definition count_close (tr : list event) : nat := length (List.filter is_close tr).

(** Does the link's scheme, as [urlparse] reads it, equal [tag]? *)
Definition has_scheme (w : World) (lib : Lib) (tag lnk : string) : bool :=
  match urlparse w lnk with
  | inr _ => String.eqb (scheme lib lnk) tag
  | inl _ => false
  end.

Definition with_scheme (w : World) (lib : Lib) (tag : string) (links : list string)
  : list string :=
  List.filter (has_scheme w lib tag) links.

(** A list as the value of a [defaultdict(list)]: no entry while nothing
    was appended. *)
Definition entry (l : list string) : option (list string) :=
  match l with [] => None | _ => Some l end.

(** The reason a probe with the handlers [clauses] gives when a call that
    ended as [o] fails. *)
Definition reason_of (clauses : list clause) (lnk : string) (o : option exn)
    (out : exn + result) : Prop :=
  exists e msg, o = Some e /\ except clauses e = Some msg /\
                out = inr (set_error (initial lnk) msg).

(** Every recorded link is filed under its own fingerprint. *)
Definition recorded_ok (w : World) (lib : Lib) (m : gmap string (string * string)) : Prop :=
  forall fp lnk src, m !! fp = Some (lnk, src) -> get_link_fingerprint w lib lnk = inr fp.

(** The remark [format_and_replace_remark] writes. *)
Definition remark (w : World) (new_name : string) (ping : pyval) : pyval :=
  PyStr (new_name +:+ " " +:+ ("| Ping: " +:+ py_str w ping +:+ "ms")).

(** A character the host group of the second regular expression of
    [test_ss_link] accepts. *)
Definition no_colon (c : Z) : Prop := negb (c =? Re.colon) = true.

(** Nothing can be resolved in [w]. *)
Definition unresolvable (w : World) : Prop :=
  forall host, ip_address w host = false /\
               exists msg, gethostbyname w host = inl (Exn GaiError msg).

End Checks.

(** ** Further worlds *)

Module Scenario2.
Import Py Tester Utils Scenario.

(** A world without DNS. *)
Definition no_dns : World :=
  {| clock0 := 0;
     urlparse := parsed "abc" "example.com" 443;
     parse_qs := fun _ => inr ∅;
     utf8_decode_ignore := chrs;
     json_loads := vmess_json_loads;
     int_of_str := decimal;
     int_of_float := fun _ => inl (Exn ValueError "cannot convert float to integer");
     repr_of := fun _ => "<object>";
     uuid_hex_int := fun _ => inr vless_uuid_int;
     ip_address := fun _ => false;
     gethostbyname := fun _ => inl (Exn GaiError "[Errno -2] Name or service not known");
     socket_socket := None;
     connect := fun _ _ _ => ok 10;
     create_connection := fun _ _ _ => ok 10;
     wrap_socket := fun _ _ => ok 10;
     send := fun _ _ => ok 10;
     recv := fun _ => ok 10 |}.

(** The scheme of a link: the text before its first colon. *)
Definition scheme_before_colon (lnk : string) : string :=
  match String.index 0 ":" lnk with
  | Some i => String.substring 0 i lnk
  | None => ""
  end.

Definition lib0 : Lib :=
  {| scheme := scheme_before_colon;
     json_dumps := fun _ => inr (chrs vmess_json);
     with_fragment := fun lnk _ => inr lnk |}.

(** A VLESS server behind TLS: the link asks for [security=tls]. *)
Definition vless_tls_server : World :=
  world (parsed "b831381d-6324-4d53-ad4f-8cda48b30811" "example.com" 443)
        (<["security" := ["tls"]]> ∅)
        no_json (inr vless_uuid_int) (ok 30000) (ok 40000) (ok 10) (ok 20500).

(** The JSON object of [Scenario] after its remark was set to
    DE | Ping: 42ms, and a [json.loads] that reads both objects. *)
Definition renamed_json : list Z :=
  ords "{" ++ quoted "add" ++ ords ":" ++ quoted "example.com" ++ ords ","
    ++ quoted "port" ++ ords ":443," ++ quoted "tls" ++ ords ":" ++ quoted "tls"
    ++ ords "," ++ quoted "ps" ++ ords ":" ++ quoted "DE | Ping: 42ms" ++ ords "}".

Definition renamed_config_items : list (string * pyval) :=
  [("add", PyStr "example.com"); ("port", PyInt 443);
   ("tls", PyStr "tls"); ("ps", PyStr "DE | Ping: 42ms")].

Definition json_loads_both (s : string) : exn + pyval :=
  if String.eqb s (chrs vmess_json) then inr (PyDict vmess_config_items)
  else if String.eqb s (chrs renamed_json) then inr (PyDict renamed_config_items)
  else no_json s.

Definition renaming_world : World :=
  world (parsed "" "" 0) ∅ json_loads_both bad_uuid (ok 30000) (ok 40000) (ok 10) (ok 10).

Definition renaming_lib : Lib :=
  {| scheme := scheme_before_colon;
     json_dumps := fun _ => inr (chrs renamed_json);
     with_fragment := fun lnk _ => inr lnk |}.

(** The bytes of [method:password@host:port] for a Shadowsocks link. *)
Definition ss_userinfo : list Z := ords "aes-256-gcm:pw@example.com:8388".

(** What two scrapers found, and links without a scheme. *)
Definition found : list (string * string) :=
  [(trojan_abc, "https://t.me/s/first"); (trojan_abc, "https://t.me/s/second")].

Definition mixed_links : list string :=
  [trojan_abc; "ss://YWJj"; "no scheme"; "trojan://abc@example.org:443"].

End Scenario2.

(** * Properties *)

(** ** Reasoning rules for the monad *)

Module Rules.
Import Py Tester Spec.

Section rules.
Context {A B : Type}.
Implicit Types (Q : A -> state -> Prop) (E : exn -> state -> Prop) (s : state).

Lemma wp_ret (a : A) Q E s : Q a s -> wp (ret a) Q E s.
Proof. done. Qed.

Lemma wp_raise e Q E s : E e s -> wp (raise e) Q E s.
Proof. done. Qed.

Lemma wp_lift (r : exn + A) Q E s :
  match r with inr a => Q a s | inl e => E e s end -> wp (lift r) Q E s.
Proof. unfold wp, lift. by destruct r. Qed.

Lemma wp_bind (m : M A) (f : A -> M B) (R : B -> state -> Prop) E s :
  wp m (fun a s' => wp (f a) R E s') E s -> wp (m ≫= f) R E s.
Proof.
  unfold wp, mbind, M_bind, bind. by destruct (m s) as [[e|a] s'].
Qed.

Lemma wp_with_plain_sock (m : M A) Q E s :
  wp m (fun a s' => Q a (logged s' EvClosePlain))
       (fun e s' => E e (logged s' EvClosePlain)) s ->
  wp (with_plain_sock m) Q E s.
Proof.
  unfold wp, with_plain_sock. by destruct (m s) as [[e|a] s'].
Qed.

End rules.

Section unit_rules.
Implicit Types (Q : unit -> state -> Prop) (E : exn -> state -> Prop) (s : state).

Lemma wp_log ev Q E s : Q tt (logged s ev) -> wp (log ev) Q E s.
Proof. done. Qed.

Lemma wp_bind_sock Q E s : Q tt (bound s) -> wp bind_sock Q E s.
Proof. done. Qed.

Lemma wp_time_time (Q : Z -> state -> Prop) E s : Q (clock s) s -> wp time_time Q E s.
Proof. done. Qed.

Lemma wp_of_outcome o Q E s :
  match o with None => Q tt s | Some e => E e s end -> wp (of_outcome o) Q E s.
Proof. by destruct o. Qed.

Lemma wp_settimeout timeout Q E s :
  (0 <= timeout -> Q tt s) ->
  (timeout < 0 -> E (Exn ValueError "Timeout value out of range") s) ->
  wp (settimeout timeout) Q E s.
Proof.
  unfold settimeout. intros Hq He.
  destruct (Z.ltb_spec timeout 0); [apply He | apply Hq]; lia.
Qed.

Lemma wp_blocking r ev Q E s :
  (outcome r = None -> Q tt (after s (took r) (ev true))) ->
  (forall e, outcome r = Some e -> E e (after s (took r) (ev false))) ->
  wp (blocking r ev) Q E s.
Proof.
  unfold wp, blocking, mbind, M_bind, bind, tick, log, of_outcome. simpl.
  destruct (outcome r) as [e|]; simpl; intros Hq He; [by apply He | by apply Hq].
Qed.

Lemma wp_resolve_domain w domain (Q : pyval -> state -> Prop) E s :
  (forall ip, Q ip s) -> (forall e, E e s) -> wp (resolve_domain w domain) Q E s.
Proof.
  unfold wp, resolve_domain. intros Hq He.
  destruct (ip_address w domain); [apply Hq |].
  destruct (gethostbyname w domain) as [e|ip]; [| apply Hq].
  destruct (isinstance e H_gaierror); [apply Hq | apply He].
Qed.

Lemma wp_decode_padded w encoded_part (Q : string -> state -> Prop) E s :
  let padded_part :=
    encoded_part +:+ pad_eq ((- Z.of_nat (String.length encoded_part)) mod 4) in
  (forall decoded, Base64.b64decode padded_part = inr decoded ->
     Q (utf8_decode_ignore w decoded) (logged s (EvB64decode padded_part))) ->
  (forall e, Base64.b64decode padded_part = inl e ->
     E e (logged s (EvB64decode padded_part))) ->
  wp (decode_padded w encoded_part) Q E s.
Proof.
  intros padded_part Hq He.
  unfold wp, decode_padded, mbind, M_bind, bind, log, lift. simpl.
  fold padded_part.
  destruct (Base64.b64decode padded_part) as [e|d]; [by apply He | by apply Hq].
Qed.

End unit_rules.

(** One step of symbolic execution. *)
Ltac wp_step :=
  lazymatch goal with
  | |- wp (_ ≫= _) _ _ _ => apply wp_bind
  | |- wp (ret _) _ _ _ => apply wp_ret
  | |- wp (raise _) _ _ _ => apply wp_raise
  | |- wp (lift ?r) _ _ _ => apply wp_lift; destruct r eqn:?
  | |- wp (log _) _ _ _ => apply wp_log
  | |- wp bind_sock _ _ _ => apply wp_bind_sock
  | |- wp time_time _ _ _ => apply wp_time_time
  | |- wp (of_outcome ?o) _ _ _ => apply wp_of_outcome; destruct o eqn:?
  | |- wp (settimeout _) _ _ _ => apply wp_settimeout; intros ?
  | |- wp (blocking _ _) _ _ _ => apply wp_blocking; [intros ? | intros ? ?]
  | |- wp (resolve_domain _ _) _ _ _ => apply wp_resolve_domain; intros ?
  | |- wp (decode_padded _ _) _ _ _ => apply wp_decode_padded; intros ? ?
  | |- wp (with_plain_sock _) _ _ _ => apply wp_with_plain_sock
  | |- wp (if ?b then _ else _) _ _ _ => destruct b eqn:?
  | |- wp (let '(_, _) := ?p in _) _ _ _ => destruct p
  | |- wp (match ?x with _ => _ end) _ _ _ => destruct x eqn:?
  end.

End Rules.

(** ** What a probe returns *)

Module Shape.
Import Py Tester Spec Rules.

Lemma round_div_1000_bounds x B :
  0 <= x <= 1000 * B -> 0 <= round_div_1000 x <= B.
Proof.
  intros Hx. unfold round_div_1000.
  pose proof (Z.div_mod x 1000 ltac:(lia)) as Hdm.
  pose proof (Z.mod_pos_bound x 1000 ltac:(lia)) as Hm.
  assert (0 <= x / 1000) by (apply Z.div_pos; lia).
  assert (x / 1000 <= B) by (apply Z.div_le_upper_bound; lia).
  assert (x mod 1000 <> 0 -> x / 1000 < B) by lia.
  repeat case_match; lia.
Qed.

Lemma terminal_dns_failed w lnk server :
  terminal lnk (dns_failed w (initial lnk) server).
Proof. split; [done | left; repeat split; eauto]. Qed.

Lemma terminal_set_alive lnk ms : terminal lnk (set_alive (initial lnk) ms).
Proof. split; [done | right; repeat split; eauto]. Qed.

Lemma terminal_set_error lnk msg : terminal lnk (set_error (initial lnk) msg).
Proof. split; [done | left; repeat split; eauto]. Qed.

Lemma ping_within_dead B r : ping_ms r = None -> ping_within B r.
Proof. intros H ms Hms. congruence. Qed.

Lemma run_probe_spec w lnk body clauses (P : exn + result -> list event -> Prop) :
  wp body
     (fun r s => P (inr r) (finally s))
     (fun e s =>
        P (match except clauses e with
           | Some msg => inr (set_error (initial lnk) msg)
           | None => inl e
           end) (finally s))
     (start w) ->
  P (fst (run_probe w lnk body clauses)) (snd (run_probe w lnk body clauses)).
Proof.
  unfold wp, run_probe, start.
  destruct (body _) as [[e|r] s]; simpl; auto.
Qed.

(** Every handler list ends in [except Exception], so no exception leaves
    a probe. *)
Lemma vless_handlers_total e : exists msg, except vless_handlers e = Some msg.
Proof. destruct e as [[] m]; eexists; reflexivity. Qed.

Lemma vmess_handlers_total e : exists msg, except vmess_handlers e = Some msg.
Proof. destruct e as [[] m]; eexists; reflexivity. Qed.

Lemma trojan_handlers_total e : exists msg, except trojan_handlers e = Some msg.
Proof. destruct e as [[] m]; eexists; reflexivity. Qed.

Lemma ss_handlers_total e : exists msg, except ss_handlers e = Some msg.
Proof. destruct e as [[] m]; eexists; reflexivity. Qed.

Lemma returns_ok_handled w lnk timeout k clauses e :
  (exists msg, except clauses e = Some msg) ->
  returns_ok w lnk timeout k
    (match except clauses e with
     | Some msg => inr (set_error (initial lnk) msg)
     | None => inl e
     end).
Proof.
  intros [msg ->]. eexists; split; [done |].
  split; [apply terminal_set_error | intros _; by apply ping_within_dead].
Qed.

Lemma returns_ok_dns w lnk timeout k server :
  returns_ok w lnk timeout k (inr (dns_failed w (initial lnk) server)).
Proof.
  eexists; split; [done |].
  split; [apply terminal_dns_failed | intros _; by apply ping_within_dead].
Qed.

(** Collects the bounds [timely] gives for the socket calls that returned. *)
Ltac use_timely Ht :=
  destruct Ht as (Hconn & Hcc & Htls & Hsend & Hrecv);
  repeat match goal with
         | H : outcome ?r = None |- _ =>
             first [ pose proof (Hconn _ _ H) | pose proof (Hcc _ _ H)
                   | pose proof (Htls _ H) | pose proof (Hsend _ H)
                   | pose proof (Hrecv H) ];
             clear H
         end.

Ltac alive_case :=
  eexists; split; [done |];
  split; [apply terminal_set_alive |];
  let Ht := fresh "Ht" in
  intros Ht ms [= <-]; apply round_div_1000_bounds;
  use_timely Ht; cbn [clock after logged bound start]; lia.

Ltac shape total :=
  lazymatch goal with
  | |- returns_ok ?w ?l ?t ?k _ =>
      apply (run_probe_spec w l _ _ (fun out _ => returns_ok w l t k out))
  end;
  repeat wp_step;
  first [ apply returns_ok_handled; apply total
        | apply returns_ok_dns
        | alive_case ].

Lemma test_vless_link_returns w lnk timeout :
  returns_ok w lnk timeout 4 (test_vless_link w lnk timeout).
Proof. unfold test_vless_link, test_vless_link_run, vless_body. shape vless_handlers_total. Qed.

Lemma test_vmess_link_returns w lnk timeout :
  returns_ok w lnk timeout 2 (test_vmess_link w lnk timeout).
Proof.
  unfold test_vmess_link, test_vmess_link_run, vmess_body, vmess_endpoint.
  shape vmess_handlers_total.
Qed.

Lemma test_trojan_link_returns w lnk timeout :
  returns_ok w lnk timeout 4 (test_trojan_link w lnk timeout).
Proof. unfold test_trojan_link, test_trojan_link_run, trojan_body. shape trojan_handlers_total. Qed.

Lemma test_ss_link_returns w lnk timeout :
  returns_ok w lnk timeout 1 (test_ss_link w lnk timeout).
Proof.
  unfold test_ss_link, test_ss_link_run, ss_body, ss_endpoint.
  shape ss_handlers_total.
Qed.

End Shape.

(** ** The orchestrator *)

Module Orchestrator.
Import Py Tester Spec Rules Shape.

Lemma supported_lookup tag :
  tag ∈ supported_tags <-> is_Some (test_function_map !! tag).
Proof.
  unfold supported_tags, test_function_map. simpl.
  rewrite !elem_of_cons, elem_of_nil.
  rewrite !lookup_insert_is_Some, lookup_empty, is_Some_alt.
  split.
  - intros [->|[->|[->|[->|[]]]]]; auto 10.
  - intros [?|[? [?|[? [?|[? [?|[? []]]]]]]]]; auto.
Qed.

(** Every test function of the dispatch table returns a terminal result. *)
Lemma probe_returns tag f w lnk timeout :
  test_function_map !! tag = Some f ->
  exists r, f w lnk timeout = inr r /\ terminal lnk r.
Proof.
  unfold test_function_map. simpl. intros H.
  apply lookup_insert_Some in H as [[_ <-]|[_ H]].
  { destruct (test_vless_link_returns w lnk timeout) as (r & ? & ? & _). by exists r. }
  apply lookup_insert_Some in H as [[_ <-]|[_ H]].
  { destruct (test_vmess_link_returns w lnk timeout) as (r & ? & ? & _). by exists r. }
  apply lookup_insert_Some in H as [[_ <-]|[_ H]].
  { destruct (test_trojan_link_returns w lnk timeout) as (r & ? & ? & _). by exists r. }
  apply lookup_insert_Some in H as [[_ <-]|[_ H]].
  { destruct (test_ss_link_returns w lnk timeout) as (r & ? & ? & _). by exists r. }
  by rewrite lookup_empty in H.
Qed.

Lemma gather_all_return (g : nat -> string -> exn + result) links :
  (forall i lnk, exists r, g i lnk = inr r /\ terminal lnk r) ->
  exists rs, gather (imap g links) = inr rs /\
             link <$> rs = links /\ Forall (fun r => terminal (link r) r) rs.
Proof.
  revert g. induction links as [|lnk links IH]; intros g Hg; simpl.
  - exists []. by repeat split.
  - destruct (Hg 0%nat lnk) as (r & -> & Ht).
    destruct (IH (g ∘ S)) as (rs & -> & Hl & Hall); [intros i l; apply Hg |].
    exists (r :: rs). split; [done |]. destruct Ht as [Hr Ht']. split.
    + rewrite fmap_cons. by f_equal.
    + constructor; [| done]. by rewrite Hr.
Qed.

(** What is stored for a supported tag with a non-empty list. *)
Lemma results_for_supported envs timeout tag links :
  tag ∈ supported_tags -> links <> [] ->
  exists rs, results_for envs timeout tag links = Some rs /\
             link <$> rs = links /\ Forall (fun r => terminal (link r) r) rs.
Proof.
  intros Htag Hne. apply supported_lookup in Htag as [f Hf].
  destruct (gather_all_return (fun i lnk => f (envs tag i) lnk timeout) links)
    as (rs & Hg & Hl & Hall).
  { intros i lnk. by eapply probe_returns. }
  exists rs. unfold results_for. rewrite Hf, Hg. by destruct links.
Qed.

Lemma results_for_gather envs timeout tag links f :
  links <> [] -> test_function_map !! tag = Some f ->
  exists rs, gather (imap (fun i lnk => f (envs tag i) lnk timeout) links) = inr rs /\
             results_for envs timeout tag links = Some rs.
Proof.
  intros Hne Hf.
  destruct (gather_all_return (fun i lnk => f (envs tag i) lnk timeout) links)
    as (rs & Hg & _).
  { intros i lnk. by eapply probe_returns. }
  exists rs. split; [done |]. unfold results_for. rewrite Hf, Hg. by destruct links.
Qed.

(** The loop stores under each tag what [results_for] says, and returns. *)
Lemma test_links_ping_lookup envs cl max_workers timeout :
  0 < max_workers ->
  exists out, test_links_ping envs cl max_workers timeout = inr out /\
              forall tag, out !! tag = cl !! tag ≫= results_for envs timeout tag.
Proof.
  intros Hmw. unfold test_links_ping.
  destruct (Z.leb_spec max_workers 0); [lia |].
  apply (map_fold_weak_ind
           (fun acc m => exists out, acc = inr out /\
              forall tag, out !! tag = m !! tag ≫= results_for envs timeout tag)).
  - exists ∅. split; [done |]. intros tag. by rewrite !lookup_empty.
  - intros i x m r Hi (out & -> & Hout). unfold test_protocol.
    destruct x as [|l x].
    { exists out. split; [done |]. intros tag.
      destruct (decide (tag = i)) as [->|Hne].
      - by rewrite lookup_insert_eq, Hout, Hi.
      - by rewrite lookup_insert_ne, Hout. }
    destruct (test_function_map !! i) as [f|] eqn:Hf.
    + destruct (results_for_gather envs timeout i (l :: x) f) as (rs & -> & Hrs); [done.. |].
      exists (<[i:=rs]> out). split; [done |]. intros tag.
      destruct (decide (tag = i)) as [->|Hne].
      * by rewrite !lookup_insert_eq.
      * by rewrite !lookup_insert_ne, Hout.
    + exists out. split; [done |]. intros tag.
      destruct (decide (tag = i)) as [->|Hne].
      * rewrite lookup_insert_eq, Hout, Hi. simpl. unfold results_for. by rewrite Hf.
      * by rewrite lookup_insert_ne, Hout.
Qed.

Lemma count_link_fmap C rs : count_link C rs = count_submitted C (link <$> rs).
Proof.
  unfold count_link, count_submitted.
  induction rs as [|r rs IH]; [done |].
  rewrite fmap_cons, !filter_cons. repeat case_decide; simpl; congruence.
Qed.

Lemma count_submitted_elem C links : C ∈ links -> (1 <= count_submitted C links)%nat.
Proof.
  unfold count_submitted. induction 1 as [|? ? ? _ IH].
  - rewrite filter_cons_True by done. simpl. lia.
  - rewrite filter_cons. case_decide; simpl; lia.
Qed.

Lemma count_submitted_not_elem C links : C ∉ links -> count_submitted C links = 0%nat.
Proof.
  unfold count_submitted. induction links as [|l links IH]; [done |].
  rewrite not_elem_of_cons. intros [Hne Hnot].
  rewrite filter_cons_False by congruence. auto.
Qed.

Lemma count_submitted_NoDup C links :
  NoDup links -> C ∈ links -> count_submitted C links = 1%nat.
Proof.
  induction 1 as [|l links Hl _ IH]; [by rewrite elem_of_nil |].
  rewrite elem_of_cons. unfold count_submitted. intros [->|Hin].
  - rewrite filter_cons_True by done. simpl. f_equal.
    apply (count_submitted_not_elem l links Hl).
  - rewrite filter_cons_False; [by apply IH |]. intros ->. done.
Qed.

End Orchestrator.

(** ** The orchestrator: claims *)

Section orchestrator_claims.
Import Py Tester Spec Orchestrator.

(** C1. For every candidate [C] submitted to [test_links_ping] under a
    supported protocol tag, the returned mapping has a result list under
    that tag in which [C] is not dropped: the number of results whose
    [link] is [C] is the number of times [C] was submitted, which is
    exactly one on a list without duplicates (the caller builds the lists
    from a set). Every result in the list is terminal: alive with a
    latency, or dead with a reason. *)
Theorem test_links_ping_one_result_per_candidate
    envs (cl : gmap string (list string)) max_workers timeout tag links C :
  0 < max_workers ->
  tag ∈ supported_tags ->
  cl !! tag = Some links ->
  C ∈ links ->
  exists out rs,
    test_links_ping envs cl max_workers timeout = inr out /\
    out !! tag = Some rs /\
    (1 <= count_link C rs)%nat /\
    count_link C rs = count_submitted C links /\
    (NoDup links -> count_link C rs = 1%nat) /\
    Forall (fun r => terminal (link r) r /\ (status r = alive \/ status r = dead)) rs.
Proof.
  intros Hmw Htag Hcl HC.
  destruct (test_links_ping_lookup envs cl max_workers timeout Hmw) as (out & Hout & Hlk).
  destruct (results_for_supported envs timeout tag links Htag) as (rs & Hrs & Hl & Hall).
  { intros ->. by apply elem_of_nil in HC. }
  exists out, rs. split; [done |].
  split; [by rewrite Hlk, Hcl |].
  rewrite count_link_fmap, Hl.
  split; [by apply count_submitted_elem |].
  split; [done |].
  split; [intros Hnd; by apply count_submitted_NoDup |].
  eapply Forall_impl; [exact Hall |].
  intros r Hr. split; [done |]. destruct (status r); auto.
Qed.

(** C9. For a supported tag with a non-empty candidate list, the result
    list has the length of the input list and keeps its order: the [i]-th
    result carries the [i]-th candidate in its [link] field. *)
Theorem test_links_ping_keeps_order
    envs (cl : gmap string (list string)) max_workers timeout tag links :
  0 < max_workers ->
  tag ∈ supported_tags ->
  cl !! tag = Some links ->
  links <> [] ->
  exists out rs,
    test_links_ping envs cl max_workers timeout = inr out /\
    out !! tag = Some rs /\
    length rs = length links /\
    forall (i : nat) lnk, links !! i = Some lnk ->
      exists r, rs !! i = Some r /\ link r = lnk.
Proof.
  intros Hmw Htag Hcl Hne.
  destruct (test_links_ping_lookup envs cl max_workers timeout Hmw) as (out & Hout & Hlk).
  destruct (results_for_supported envs timeout tag links Htag Hne) as (rs & Hrs & Hl & _).
  exists out, rs. split; [done |].
  split; [by rewrite Hlk, Hcl |].
  split; [by rewrite <- Hl, length_fmap |].
  intros i lnk Hi. rewrite <- Hl, list_lookup_fmap in Hi.
  destruct (rs !! i) as [r|]; [| done].
  exists r. split; [done |]. by injection Hi.
Qed.

(** C10. A tag mapped to an empty candidate list, and likewise a tag that
    is not supported, has no key in the returned mapping. *)
Theorem test_links_ping_omits_empty_and_unsupported
    envs (cl : gmap string (list string)) max_workers timeout tag :
  0 < max_workers ->
  cl !! tag = Some [] \/ tag ∉ supported_tags ->
  exists out,
    test_links_ping envs cl max_workers timeout = inr out /\ out !! tag = None.
Proof.
  intros Hmw Hcase.
  destruct (test_links_ping_lookup envs cl max_workers timeout Hmw) as (out & Hout & Hlk).
  exists out. split; [done |]. rewrite Hlk.
  destruct Hcase as [-> | Hns]; [done |].
  destruct (cl !! tag) as [links|]; [| done]. simpl.
  unfold results_for. destruct links; [done |].
  destruct (test_function_map !! tag) eqn:Hf; [| done].
  exfalso. apply Hns, supported_lookup. by eexists.
Qed.

(** C1 at the batch of [Scenario]. *)
Lemma test_links_ping_one_result_per_candidate_witness :
  exists out rs,
    test_links_ping Scenario.batch_envs Scenario.batch 200 8 = inr out /\
    out !! "trojan" = Some rs /\
    (1 <= count_link Scenario.trojan_abc rs)%nat /\
    count_link Scenario.trojan_abc rs
      = count_submitted Scenario.trojan_abc
          [Scenario.trojan_abc; "trojan://abc@example.org:443"] /\
    (NoDup [Scenario.trojan_abc; "trojan://abc@example.org:443"] ->
     count_link Scenario.trojan_abc rs = 1%nat) /\
    Forall (fun r => terminal (link r) r /\ (status r = alive \/ status r = dead)) rs.
Proof.
  apply (test_links_ping_one_result_per_candidate
           Scenario.batch_envs Scenario.batch 200 8 "trojan"
           [Scenario.trojan_abc; "trojan://abc@example.org:443"] Scenario.trojan_abc).
  - lia.
  - vm_compute. apply list_elem_of_further, list_elem_of_further, list_elem_of_here.
  - vm_compute. reflexivity.
  - apply list_elem_of_here.
Defined.

(** C9 at the batch of [Scenario]. *)
Lemma test_links_ping_keeps_order_witness :
  exists out rs,
    test_links_ping Scenario.batch_envs Scenario.batch 200 8 = inr out /\
    out !! "trojan" = Some rs /\
    length rs = length [Scenario.trojan_abc; "trojan://abc@example.org:443"] /\
    forall (i : nat) lnk,
      [Scenario.trojan_abc; "trojan://abc@example.org:443"] !! i = Some lnk ->
      exists r, rs !! i = Some r /\ link r = lnk.
Proof.
  apply (test_links_ping_keeps_order
           Scenario.batch_envs Scenario.batch 200 8 "trojan"
           [Scenario.trojan_abc; "trojan://abc@example.org:443"]).
  - lia.
  - vm_compute. apply list_elem_of_further, list_elem_of_further, list_elem_of_here.
  - vm_compute. reflexivity.
  - discriminate.
Defined.

(** C10 at the batch of [Scenario]: the empty list under "ss". *)
Lemma test_links_ping_omits_empty_and_unsupported_witness :
  exists out,
    test_links_ping Scenario.batch_envs Scenario.batch 200 8 = inr out /\
    out !! "ss" = None.
Proof.
  apply (test_links_ping_omits_empty_and_unsupported
           Scenario.batch_envs Scenario.batch 200 8 "ss").
  - lia.
  - left. vm_compute. reflexivity.
Defined.

End orchestrator_claims.

(** ** What a probe does on the way *)

Module Traces.
Import Py Tester Spec Rules Shape.

Lemma length_to_bytes_be n z : length (to_bytes_be n z) = n.
Proof.
  revert z. induction n as [|n IH]; intros z; simpl; [done |].
  rewrite length_app, IH. simpl. lia.
Qed.

Lemma uuid_bytes_length w v b : uuid_bytes w v = inr b -> length b = 16%nat.
Proof.
  unfold uuid_bytes. destruct (uuid_hex_int w v) as [e|i]; [done |].
  case_match; [| done]. intros Hb. by injection Hb as <-.
Qed.

Lemma vless_handshake_packet_length b :
  length b = 16%nat -> length (vless_handshake_packet b) = 26%nat.
Proof.
  intros Hb. unfold vless_handshake_packet. rewrite !length_app, Hb. reflexivity.
Qed.

(** Membership of an event in a trace that is known event by event. *)
Ltac in_trace H :=
  cbn [finally trace sock after logged bound start app] in H;
  repeat (apply elem_of_cons in H as [H|H]; [try discriminate H |]);
  try (by apply elem_of_nil in H).


(** Every packet [test_vless_link] sends has 26 bytes. *)
Lemma vless_sends_26 w lnk timeout d ok :
  EvSend d ok ∈ snd (test_vless_link_run w lnk timeout) -> length d = 26%nat.
Proof.
  unfold test_vless_link_run.
  apply (run_probe_spec w lnk _ _
           (fun _ tr => EvSend d ok ∈ tr -> length d = 26%nat)).
  unfold vless_body.
  repeat wp_step; intros Hin; in_trace Hin;
    injection Hin as -> _;
    eapply vless_handshake_packet_length, uuid_bytes_length; eassumption.
Qed.


(** [test_ss_link] tries one form only: with an '@' in the link it never
    decodes base64, without one it never calls [urlparse]. *)
Lemma test_ss_link_run_one_form w lnk timeout :
  (contains "@" lnk = true ->
     forall s, EvB64decode s ∉ snd (test_ss_link_run w lnk timeout)) /\
  (contains "@" lnk = false ->
     forall l, EvUrlparse l ∉ snd (test_ss_link_run w lnk timeout)).
Proof.
  unfold test_ss_link_run.
  apply (run_probe_spec w lnk _ _
           (fun _ tr =>
              (contains "@" lnk = true -> forall s, EvB64decode s ∉ tr) /\
              (contains "@" lnk = false -> forall l, EvUrlparse l ∉ tr))).
  unfold ss_body, ss_endpoint.
  repeat wp_step;
    (split; intros Hc; [intros ? Hin | intros ? Hin]);
    first [ congruence | in_trace Hin ].
Qed.

End Traces.

(** ** The probes at their interface: claims *)

Section probe_claims.
Import Py Tester Spec Shape.

(** C2. Each of the four test functions returns normally for every link,
    timeout and behaviour of the outside world: the result carries the
    link, its status is alive or dead, and a dead result has a failure
    reason. No exception raised while parsing, resolving, connecting,
    negotiating TLS or exchanging bytes leaves the function. *)
Theorem probes_total_at_interface (w : World) (lnk : string) (timeout : Z) :
  Forall (fun test_function : World -> string -> Z -> exn + result =>
            exists r, test_function w lnk timeout = inr r /\
                      link r = lnk /\
                      (status r = alive \/ status r = dead) /\
                      (status r = dead -> exists msg, error r = Some msg))
         [test_vless_link; test_vmess_link; test_trojan_link; test_ss_link].
Proof.
  assert (Hgen : forall k out, returns_ok w lnk timeout k out ->
            exists r, out = inr r /\ link r = lnk /\
                      (status r = alive \/ status r = dead) /\
                      (status r = dead -> exists msg, error r = Some msg)).
  { intros k out (r & -> & [Hl Hcases] & _). exists r. repeat split; [done | |].
    - destruct (status r); auto.
    - intros Hd. destruct Hcases as [(_ & _ & Hmsg)|(Ha & _)]; [done | congruence]. }
  repeat constructor; eapply Hgen.
  - apply test_vless_link_returns.
  - apply test_vmess_link_returns.
  - apply test_trojan_link_returns.
  - apply test_ss_link_returns.
Qed.




End probe_claims.

(** ** What the probes send and try: claims *)

Section trace_claims.
Import Py Tester Spec Shape Traces.

(** C8. Whenever the UUID of a VLESS candidate parses, the handshake packet
    built from it has exactly 26 bytes (1 + 16 + 1 + 1 + 2 + 1 + 4), and
    every packet [test_vless_link] sends has that length, whatever the
    host, port and query parameters of the candidate. *)
Theorem vless_handshake_packet_is_26_bytes (w : World) (lnk : string) (timeout : Z) :
  (forall v b, uuid_bytes w v = inr b -> length (vless_handshake_packet b) = 26%nat) /\
  (forall d ok, EvSend d ok ∈ snd (test_vless_link_run w lnk timeout) ->
                length d = 26%nat).
Proof.
  split.
  - intros v b Hb. eapply vless_handshake_packet_length, uuid_bytes_length, Hb.
  - apply vless_sends_26.
Qed.

(** C8 at the VLESS server of [Scenario]: a packet is sent, of 26 bytes. *)
Lemma vless_handshake_packet_is_26_bytes_witness :
  exists d,
    EvSend d true ∈ snd (test_vless_link_run Scenario.vless_server Scenario.vless_link 5) /\
    length d = 26%nat.
Proof.
  set (d := vless_handshake_packet (to_bytes_be 16 Scenario.vless_uuid_int)).
  assert (Hin : EvSend d true
                ∈ snd (test_vless_link_run Scenario.vless_server Scenario.vless_link 5)).
  { vm_compute. do 3 apply list_elem_of_further. apply list_elem_of_here. }
  exists d. split; [exact Hin |].
  exact (proj2 (vless_handshake_packet_is_26_bytes
                  Scenario.vless_server Scenario.vless_link 5) d true Hin).
Defined.

(** C3 does not hold of the code: what [test_trojan_link] sends before the
    first CRLF is the hexadecimal form of the password bytes themselves,
    twice as long as the password, and not a digest of fixed length (the
    layout comment in the source announces the 56 hex digits of SHA-224).
    For the password abc the packet starts with 616263 and CRLF. *)
Theorem trojan_sends_hex_of_password_itself :
  snd (test_trojan_link_run Scenario.slow_trojan Scenario.trojan_abc 5)
    = [EvUrlparse Scenario.trojan_abc;
       EvConnect (PyStr "203.0.113.7") (PyInt 443) true;
       EvTls (PyStr "example.com") true;
       EvSend (ords "616263" ++ [13; 10] ++ [1; 3; 12] ++ ords "v1.v2ray.com"
                 ++ [0; 80] ++ [13; 10]) true;
       EvRecv true; EvClosePlain; EvClose] /\
  trojan_password_hash (Some "abc") = inr "616263" /\
  trojan_password_hash (Some "abcdef") = inr "616263646566".
Proof. repeat split. Qed.




(** C7 as stated fails: a candidate is declared malformed after one form
    only. Without an '@' the link ss://A is rejected after the base64
    attempt alone, in every world; with an '@' and a port out of range
    the link is rejected after [urlparse] alone. *)
Lemma test_ss_link_malformed_after_one_form :
  (forall w timeout,
     test_ss_link_run w "ss://A" timeout
       = (inr {| link := "ss://A"; status := dead; ping_ms := None;
                 error := Some "Invalid or unparsable SS link format" |},
          [EvB64decode "A==="])) /\
  test_ss_link_run Scenario.port_out_of_range "ss://x@h:99999" 5
    = (inr {| link := "ss://x@h:99999"; status := dead; ping_ms := None;
              error := Some "Invalid or unparsable SS link format" |},
       [EvUrlparse "ss://x@h:99999"]).
Proof. split; [intros w timeout |]; reflexivity. Qed.

(** C7, amended. [test_ss_link] attempts exactly one form, chosen by
    whether the link contains an '@': with one it reads the authority
    through [urlparse] and never decodes base64, without one it decodes
    the base64 text after the scheme and never calls [urlparse]; there is
    no fallback from one form to the other. A candidate whose chosen form
    fails with a [ValueError], [IndexError] or [binascii.Error] yields a
    dead result with the reason "Invalid or unparsable SS link format",
    and in every case the probe returns a terminal result, not an
    exception. *)
Theorem test_ss_link_tries_one_form (w : World) (lnk : string) (timeout : Z) :
  (contains "@" lnk = true ->
     forall s, EvB64decode s ∉ snd (test_ss_link_run w lnk timeout)) /\
  (contains "@" lnk = false ->
     forall l, EvUrlparse l ∉ snd (test_ss_link_run w lnk timeout)) /\
  (forall e s',
     ss_endpoint w lnk (start w) = (inl e, s') ->
     existsb (isinstance e) [H_ValueError; H_IndexError; H_binascii_Error] = true ->
     test_ss_link w lnk timeout
       = inr (set_error (initial lnk) "Invalid or unparsable SS link format")) /\
  (exists r, test_ss_link w lnk timeout = inr r /\ terminal lnk r).
Proof.
  destruct (test_ss_link_run_one_form w lnk timeout) as [Hat Hno].
  split; [done |]. split; [done |]. split.
  - intros e s' Hep Hcls.
    unfold test_ss_link, test_ss_link_run, run_probe, ss_body, mbind, M_bind, bind.
    fold (start w). rewrite Hep. simpl. simpl in Hcls. by rewrite Hcls.
  - destruct (test_ss_link_returns w lnk timeout) as (r & Hr & Ht & _). by exists r.
Qed.

(** The amended C7 at the link ss://A, which has no '@' and whose base64
    text cannot be decoded. *)
Lemma test_ss_link_tries_one_form_witness :
  contains "@" "ss://A" = false /\
  (forall l, EvUrlparse l ∉ snd (test_ss_link_run Scenario.port_out_of_range "ss://A" 5)) /\
  test_ss_link Scenario.port_out_of_range "ss://A" 5
    = inr (set_error (initial "ss://A") "Invalid or unparsable SS link format").
Proof.
  pose proof (test_ss_link_tries_one_form Scenario.port_out_of_range "ss://A" 5)
    as (_ & Hno & Hbad & _).
  split; [reflexivity |]. split; [apply Hno; reflexivity |].
  apply (Hbad (Exn BinasciiError "Incorrect padding")
              (logged (start Scenario.port_out_of_range) (EvB64decode "A===")));
    reflexivity.
Defined.

End trace_claims.

(** ** Decoding what [base64.b64encode] produced *)

Module Base64Facts.
Import Py Base64.

Lemma forall_below n (P : Z -> bool) :
  forallb P (seqZ 0 n) = true -> forall x, 0 <= x < n -> P x = true.
Proof.
  intros Hall x Hx. rewrite forallb_forall in Hall.
  apply Hall, list_elem_of_In, elem_of_seqZ. lia.
Qed.

Lemma forall_bytes2 (P : Z -> Z -> bool) :
  forallb (fun x => forallb (P x) (seqZ 0 256)) (seqZ 0 256) = true ->
  forall x y, byte x -> byte y -> P x y = true.
Proof.
  intros Hall x y Hx Hy.
  apply (forall_below 256 (P x)); [| done].
  by apply (forall_below 256 (fun x => forallb (P x) (seqZ 0 256))).
Qed.

(** The two tables are inverse on sextets, and no sextet is written as the
    pad character. *)
Lemma table_a2b_b2a v :
  0 <= v < 64 ->
  (table_b2a_base64 v =? BASE64_PAD) = false /\
  table_a2b_base64 (table_b2a_base64 v) = Some v /\
  0 <= table_b2a_base64 v < 128.
Proof.
  intros Hv.
  pose proof (forall_below 64
    (fun v => negb (table_b2a_base64 v =? BASE64_PAD)
              && match table_a2b_base64 (table_b2a_base64 v) with
                 | Some u => u =? v
                 | None => false
                 end
              && (0 <=? table_b2a_base64 v) && (table_b2a_base64 v <? 128))
    ltac:(by vm_compute) v Hv) as H.
  repeat (apply andb_true_iff in H as [H ?]).
  apply negb_true_iff in H.
  destruct (table_a2b_base64 (table_b2a_base64 v)) as [u|]; [| done].
  repeat split; [done | f_equal | |]; lia.
Qed.

(** What the decoder recombines from them. *)
Lemma sextets_first x y :
  byte x -> byte y ->
  0 <= s0 x < 64 /\ 0 <= s1 x y < 64 /\
  Z.land (Z.lor (Z.shiftl (s0 x) 2) (Z.shiftr (s1 x y) 4)) 255 = x /\
  Z.land (s1 x y) 15 = Z.shiftr y 4.
Proof.
  intros Hx Hy.
  pose proof (forall_bytes2
    (fun x y => (0 <=? s0 x) && (s0 x <? 64) && (0 <=? s1 x y) && (s1 x y <? 64)
                && (Z.land (Z.lor (Z.shiftl (s0 x) 2) (Z.shiftr (s1 x y) 4)) 255 =? x)
                && (Z.land (s1 x y) 15 =? Z.shiftr y 4))
    ltac:(by vm_compute) x y Hx Hy) as H.
  repeat (apply andb_true_iff in H as [H ?]). lia.
Qed.

Lemma sextets_last y z :
  byte y -> byte z ->
  0 <= s2 y z < 64 /\ 0 <= s3 z < 64 /\
  Z.land (Z.lor (Z.shiftl (Z.shiftr y 4) 4) (Z.shiftr (s2 y z) 2)) 255 = y /\
  Z.land (Z.lor (Z.shiftl (Z.land (s2 y z) 3) 6) (s3 z)) 255 = z.
Proof.
  intros Hy Hz.
  pose proof (forall_bytes2
    (fun y z => (0 <=? s2 y z) && (s2 y z <? 64) && (0 <=? s3 z) && (s3 z <? 64)
                && (Z.land (Z.lor (Z.shiftl (Z.shiftr y 4) 4) (Z.shiftr (s2 y z) 2)) 255 =? y)
                && (Z.land (Z.lor (Z.shiftl (Z.land (s2 y z) 3) 6) (s3 z)) 255 =? z))
    ltac:(by vm_compute) y z Hy Hz) as H.
  repeat (apply andb_true_iff in H as [H ?]). lia.
Qed.

(** The last sextet of an incomplete group is padded with zero bits. *)
Lemma sextets_one x :
  byte x ->
  0 <= Z.shiftl (Z.land x 3) 4 < 64 /\
  Z.land (Z.lor (Z.shiftl (s0 x) 2) (Z.shiftr (Z.shiftl (Z.land x 3) 4) 4)) 255 = x.
Proof.
  intros Hx.
  pose proof (forall_below 256
    (fun x => (0 <=? Z.shiftl (Z.land x 3) 4) && (Z.shiftl (Z.land x 3) 4 <? 64)
              && (Z.land (Z.lor (Z.shiftl (s0 x) 2)
                                (Z.shiftr (Z.shiftl (Z.land x 3) 4) 4)) 255 =? x))
    ltac:(by vm_compute) x Hx) as H.
  repeat (apply andb_true_iff in H as [H ?]). lia.
Qed.

Lemma sextets_two y :
  byte y ->
  0 <= Z.shiftl (Z.land y 15) 2 < 64 /\
  Z.land (Z.lor (Z.shiftl (Z.shiftr y 4) 4)
                (Z.shiftr (Z.shiftl (Z.land y 15) 2) 2)) 255 = y.
Proof.
  intros Hy.
  pose proof (forall_below 256
    (fun y => (0 <=? Z.shiftl (Z.land y 15) 2) && (Z.shiftl (Z.land y 15) 2 <? 64)
              && (Z.land (Z.lor (Z.shiftl (Z.shiftr y 4) 4)
                                (Z.shiftr (Z.shiftl (Z.land y 15) 2) 2)) 255 =? y))
    ltac:(by vm_compute) y Hy) as H.
  repeat (apply andb_true_iff in H as [H ?]). lia.
Qed.

Lemma byte_0 : byte 0.
Proof. unfold byte. lia. Qed.

(** One data character read by the loop. *)
Lemma a2b_loop_data v rest quad_pos leftchar pads :
  0 <= v < 64 ->
  a2b_loop (table_b2a_base64 v :: rest) quad_pos leftchar pads =
  match quad_pos with
  | 0%nat => a2b_loop rest 1 v 0
  | 1%nat =>
      cons (Z.land (Z.lor (Z.shiftl leftchar 2) (Z.shiftr v 4)) 255)
        <$> a2b_loop rest 2 (Z.land v 15) 0
  | 2%nat =>
      cons (Z.land (Z.lor (Z.shiftl leftchar 4) (Z.shiftr v 2)) 255)
        <$> a2b_loop rest 3 (Z.land v 3) 0
  | _ =>
      cons (Z.land (Z.lor (Z.shiftl leftchar 6) v) 255) <$> a2b_loop rest 0 0 0
  end.
Proof.
  intros Hv. destruct (table_a2b_b2a v Hv) as (Hpad & Htab & _).
  cbn [a2b_loop]. by rewrite Hpad, Htab.
Qed.

(** A full group of three bytes is read back, whatever follows. *)
Lemma a2b_loop_group x y z rest leftchar :
  byte x -> byte y -> byte z ->
  a2b_loop (table_b2a_base64 (s0 x) :: table_b2a_base64 (s1 x y)
            :: table_b2a_base64 (s2 y z) :: table_b2a_base64 (s3 z) :: rest)
           0 leftchar 0
  = (fun l => x :: y :: z :: l) <$> a2b_loop rest 0 0 0.
Proof.
  intros Hx Hy Hz.
  destruct (sextets_first x y Hx Hy) as (H0 & H1 & Hox & Hl1).
  destruct (sextets_last y z Hy Hz) as (H2 & H3 & Hoy & Hoz).
  rewrite !a2b_loop_data by done.
  rewrite Hox, Hl1, Hoy, Hoz. by destruct (a2b_loop rest 0 0 0).
Qed.

(** The data characters of [b] followed by its padding decode to [b]. *)
Lemma a2b_loop_b2a b :
  Forall byte b ->
  a2b_loop (b2a_data b ++ repeat BASE64_PAD (b2a_npad b)) 0 0 0 = Some b.
Proof.
  revert b.
  assert (Hind : forall n b, (length b <= n)%nat -> Forall byte b ->
            forall leftchar,
            a2b_loop (b2a_data b ++ repeat BASE64_PAD (b2a_npad b)) 0 leftchar 0 = Some b).
  { induction n as [|n IH]; intros b Hlen Hb leftchar.
    { by destruct b; [| simpl in Hlen; lia]. }
    destruct b as [|x [|y [|z b]]].
    - done.
    - apply Forall_cons in Hb as [Hx _].
      destruct (sextets_first x 0 Hx byte_0) as (H0 & _).
      destruct (sextets_one x Hx) as (H1 & Hox).
      change (b2a_data [x]) with
        [table_b2a_base64 (s0 x); table_b2a_base64 (Z.shiftl (Z.land x 3) 4)].
      cbn [app]. rewrite !a2b_loop_data by done. by rewrite Hox.
    - apply Forall_cons in Hb as [Hx Hb]. apply Forall_cons in Hb as [Hy _].
      destruct (sextets_first x y Hx Hy) as (H0 & H1 & Hox & Hl1).
      destruct (sextets_two y Hy) as (H2 & Hoy).
      change (b2a_data [x; y]) with
        [table_b2a_base64 (s0 x); table_b2a_base64 (s1 x y);
         table_b2a_base64 (Z.shiftl (Z.land y 15) 2)].
      cbn [app]. rewrite !a2b_loop_data by done. by rewrite Hox, Hl1, Hoy.
    - apply Forall_cons in Hb as [Hx Hb]. apply Forall_cons in Hb as [Hy Hb].
      apply Forall_cons in Hb as [Hz Hb].
      change (b2a_data (x :: y :: z :: b)) with
        (table_b2a_base64 (s0 x) :: table_b2a_base64 (s1 x y)
         :: table_b2a_base64 (s2 y z) :: table_b2a_base64 (s3 z) :: b2a_data b).
      replace (b2a_npad (x :: y :: z :: b)) with (b2a_npad b).
      + cbn [app]. rewrite a2b_loop_group by done.
        rewrite IH; [done | simpl in Hlen; lia | done].
      + unfold b2a_npad. cbn [length].
        replace (S (S (S (length b)))) with (length b + 1 * 3)%nat by lia.
        by rewrite Nat.Div0.mod_add. }
  intros b Hb. by apply (Hind (length b)).
Qed.

Lemma list_ind3 {A} (P : list A -> Prop) :
  P [] -> (forall x, P [x]) -> (forall x y, P [x; y]) ->
  (forall x y z l, P l -> P (x :: y :: z :: l)) ->
  forall l, P l.
Proof.
  intros H0 H1 H2 H3 l.
  assert (Hind : forall n l, (length l <= n)%nat -> P l).
  { induction n as [|n IH]; intros [|x [|y [|z l']]] Hlen; simpl in Hlen;
      auto; try lia. apply H3, IH. lia. }
  by apply (Hind (length l)).
Qed.

(** The encoder writes ASCII characters, and with its padding a multiple
    of four of them. *)
Lemma b2a_data_ascii b :
  Forall byte b -> Forall (fun c => 0 <= c < 128) (b2a_data b).
Proof.
  induction b as [|x|x y|x y z b IH] using list_ind3; intros Hb.
  - constructor.
  - apply Forall_cons in Hb as [Hx _].
    destruct (sextets_first x 0 Hx byte_0) as (H0 & _).
    destruct (sextets_one x Hx) as (H1 & _).
    repeat constructor; by apply table_a2b_b2a.
  - apply Forall_cons in Hb as [Hx Hb]. apply Forall_cons in Hb as [Hy _].
    destruct (sextets_first x y Hx Hy) as (H0 & H1 & _).
    destruct (sextets_two y Hy) as (H2 & _).
    repeat constructor; by apply table_a2b_b2a.
  - apply Forall_cons in Hb as [Hx Hb]. apply Forall_cons in Hb as [Hy Hb].
    apply Forall_cons in Hb as [Hz Hb].
    destruct (sextets_first x y Hx Hy) as (H0 & H1 & _).
    destruct (sextets_last y z Hy Hz) as (H2 & H3 & _).
    change (b2a_data (x :: y :: z :: b)) with
      (table_b2a_base64 (s0 x) :: table_b2a_base64 (s1 x y)
       :: table_b2a_base64 (s2 y z) :: table_b2a_base64 (s3 z) :: b2a_data b).
    repeat (constructor; [by apply table_a2b_b2a |]). by apply IH.
Qed.

Lemma b2a_npad_le b : (b2a_npad b <= 2)%nat.
Proof. unfold b2a_npad. repeat case_match; lia. Qed.

Lemma b2a_data_length b :
  ((length (b2a_data b) + b2a_npad b) mod 4 = 0)%nat.
Proof.
  induction b as [|x|x y|x y z b IH] using list_ind3; try done.
  change (b2a_data (x :: y :: z :: b)) with
    (table_b2a_base64 (s0 x) :: table_b2a_base64 (s1 x y)
     :: table_b2a_base64 (s2 y z) :: table_b2a_base64 (s3 z) :: b2a_data b).
  replace (b2a_npad (x :: y :: z :: b)) with (b2a_npad b).
  - cbn [length].
    replace (S (S (S (S (length (b2a_data b))))) + b2a_npad b)%nat
      with (length (b2a_data b) + b2a_npad b + 1 * 4)%nat by lia.
    by rewrite Nat.Div0.mod_add.
  - unfold b2a_npad. cbn [length].
    replace (S (S (S (length b)))) with (length b + 1 * 3)%nat by lia.
    by rewrite Nat.Div0.mod_add.
Qed.

(** Strings and their code points. *)
Lemma ord_chr z : byte z -> ord (chr z) = z.
Proof.
  unfold byte, ord, chr. intros Hz.
  rewrite N_ascii_embedding by lia. lia.
Qed.

Lemma ords_chrs l : Forall byte l -> ords (chrs l) = l.
Proof.
  unfold ords, chrs. rewrite list_ascii_of_string_of_list_ascii.
  induction 1 as [|z l Hz _ IH]; [done |].
  rewrite !map_cons, ord_chr by done. by f_equal.
Qed.

Lemma chrs_app a b : chrs (a ++ b) = chrs a +:+ chrs b.
Proof.
  unfold chrs. induction a as [|x a IH]; [done |].
  simpl. rewrite IH. reflexivity.
Qed.

Lemma length_chrs l : String.length (chrs l) = length l.
Proof. unfold chrs. induction l as [|x l IH]; [done |]. simpl. by f_equal. Qed.

Lemma substring_full t : String.substring 0 (String.length t) t = t.
Proof. induction t as [|c t IH]; [done |]. simpl. by f_equal. Qed.

(** The padding idiom restores the pad characters that were stripped, and
    [b64decode] then returns the bytes that were encoded. *)
Lemma b64decode_repadded b k :
  Forall byte b -> (k <= b2a_npad b)%nat ->
  let payload := b64encode_pad k b in
  payload +:+ pad_eq ((- Z.of_nat (String.length payload)) mod 4) = b64encode b /\
  b64decode (b64encode b) = inr b.
Proof.
  intros Hb Hk payload. split.
  - unfold payload, b64encode, b64encode_pad, pad_eq.
    rewrite length_chrs, length_app, repeat_length, <- chrs_app, <- app_assoc.
    do 2 f_equal. rewrite <- repeat_app. f_equal.
    pose proof (b2a_data_length b) as Hlen. pose proof (b2a_npad_le b) as Hle.
    apply Nat.Lcm0.mod_divide in Hlen as [q Hq].
    assert ((- Z.of_nat (length (b2a_data b) + k)) mod 4
            = Z.of_nat (b2a_npad b - k)) as ->; [| lia].
    symmetry. apply (Z.mod_unique_pos _ _ (- Z.of_nat q)); lia.
  - unfold b64decode, b64encode, b64encode_pad.
    pose proof (b2a_data_ascii b Hb) as Hascii.
    assert (Hall : Forall (fun c => 0 <= c < 128)
                     (b2a_data b ++ repeat BASE64_PAD (b2a_npad b))).
    { apply Forall_app. split; [done |].
      apply Forall_forall. intros c Hc.
      apply list_elem_of_In in Hc. apply repeat_spec in Hc as ->.
      unfold BASE64_PAD. lia. }
    rewrite ords_chrs by (eapply Forall_impl; [exact Hall |]; unfold byte; simpl; lia).
    rewrite (proj2 (forallb_forall _ _)).
    + unfold a2b_base64. by rewrite a2b_loop_b2a.
    + intros c Hc. rewrite Forall_forall in Hall.
      apply Z.ltb_lt, Hall, list_elem_of_In, Hc.
Qed.

End Base64Facts.

(** ** The VMess envelope: claims *)

Section vmess_claims.
Import Py Base64 Tester Spec Rules Shape Traces Base64Facts.

Lemma split1_snd_vmess payload :
  split1_snd "://" ("vmess://" +:+ payload) = inr payload.
Proof.
  change ("vmess://" +:+ payload)
    with (String "v" (String "m" (String "e" (String "s" (String "s"
           (String ":" (String "/" (String "/" payload)))))))).
  unfold split1_snd. cbn.
  assert (String.prefix "" payload = true) as -> by (by destruct payload).
  cbn. by rewrite Nat.sub_0_r, substring_full.
Qed.





End vmess_claims.

(** * Further properties of the probes *)

Module More.
Import Py Tester Spec Rules Shape Traces Checks.

Lemma handled_dead clauses lnk e r :
  match except clauses e with
  | Some msg => inr (set_error (initial lnk) msg)
  | None => inl e
  end = inr r ->
  status r = dead /\ ping_ms r = None /\
  exists msg, except clauses e = Some msg /\ error r = Some msg.
Proof.
  destruct (except clauses e) as [msg|]; [| done].
  intros [= <-]. repeat split. by exists msg.
Qed.

(** No handler writes a reason that reads like a failed resolution. *)
Lemma handlers_not_dns clauses e msg tail :
  clauses = vless_handlers \/ clauses = vmess_handlers \/
  clauses = trojan_handlers \/ clauses = ss_handlers ->
  except clauses e = Some msg ->
  msg <> "DNS resolution failed for: " +:+ tail.
Proof.
  intros Hcl Hmsg Heq. subst msg.
  destruct Hcl as [-> | [-> | [-> | ->]]]; destruct e as [[] m];
    vm_compute in Hmsg; discriminate Hmsg.
Qed.

(** Membership in a trace that is known event by event. *)
Ltac trace_mem :=
  cbn [finally trace sock after logged bound start app];
  solve [ repeat first [ apply list_elem_of_here | apply list_elem_of_further ] ].

(** The result at an exit of a probe is not alive unless the exit is the
    last line of the body. *)
Ltac dead_exit Hr Ha :=
  first [ apply handled_dead in Hr as (? & ? & ?); congruence
        | injection Hr as <-; cbn in Ha; discriminate Ha ].

(** Membership of an event in a trace known event by event, after
    evaluating the flags of its events. *)
Ltac in_trace_eval H :=
  cbn in H;
  repeat (apply elem_of_cons in H as [H|H]; [try discriminate H |]);
  try (by apply elem_of_nil in H).

(** Splits a statement about a list of two, three or four probes. *)
Ltac each_probe :=
  repeat (apply Forall_cons; split); [.. | by apply Forall_nil]; cbv beta.

End More.

Section further_probe_properties.
Import Py Tester Spec Rules Shape Traces Checks More.

(** X1. A result that reports a failed resolution comes from a run that
    never touched the socket layer: no socket was created, connected,
    wrapped, written to, read from or closed. This holds for the four
    probes. *)
Theorem dns_failure_opens_no_socket (w : World) (lnk : string) (timeout : Z) :
  Forall (fun run : World -> string -> Z -> (exn + result) * list event =>
            forall r tail,
              fst (run w lnk timeout) = inr r ->
              error r = Some ("DNS resolution failed for: " +:+ tail) ->
              status r = dead /\ ping_ms r = None /\
              existsb is_socket_event (snd (run w lnk timeout)) = false)
         [test_vless_link_run; test_vmess_link_run; test_trojan_link_run;
          test_ss_link_run].
Proof.
  assert (Hexit : forall clauses e tr,
            clauses = vless_handlers \/ clauses = vmess_handlers \/
            clauses = trojan_handlers \/ clauses = ss_handlers ->
            forall r tail,
              match except clauses e with
              | Some msg => inr (set_error (initial lnk) msg)
              | None => inl e
              end = inr r ->
              error r = Some ("DNS resolution failed for: " +:+ tail) ->
              status r = dead /\ ping_ms r = None /\ existsb is_socket_event tr = false).
  { intros clauses e tr Hcl r tail Hr Herr.
    apply handled_dead in Hr as (_ & _ & msg & Hmsg & Hmsg').
    rewrite Hmsg' in Herr. injection Herr as ->.
    by destruct (handlers_not_dns clauses e _ tail Hcl Hmsg). }
  each_probe; intros r tail;
    [ unfold test_vless_link_run | unfold test_vmess_link_run
    | unfold test_trojan_link_run | unfold test_ss_link_run ];
    revert r tail;
    apply (run_probe_spec w lnk _ _
             (fun out tr => forall r tail, out = inr r ->
                error r = Some ("DNS resolution failed for: " +:+ tail) ->
                status r = dead /\ ping_ms r = None /\ existsb is_socket_event tr = false));
    unfold vless_body, vmess_body, vmess_endpoint, trojan_body, ss_body, ss_endpoint;
    repeat wp_step;
    first [ apply Hexit; tauto
          | intros r tail [= <-] Herr;
            first [ discriminate Herr | repeat split; reflexivity ] ].
Qed.

(** X2. The two probes that speak a handshake report alive only at the end
    of one fixed sequence of calls: connect, TLS where it applies, one
    send of the handshake packet, one recv that returned, and the close.
    For VLESS the packet is built from the UUID of the link and TLS is
    optional; for Trojan the packet is built from the password and TLS is
    always there. *)
Theorem handshake_probes_alive_trace (w : World) (lnk : string) (timeout : Z) :
  (forall r, fst (test_vless_link_run w lnk timeout) = inr r -> status r = alive ->
     exists p port uuid_b ip,
       urlparse w lnk = inr p /\ Tester.port p = inr port /\
       uuid_bytes w (of_opt_str (username p)) = inr uuid_b /\
       (snd (test_vless_link_run w lnk timeout)
          = [EvUrlparse lnk; EvSocket true; EvConnect ip (of_opt_int port) true;
             EvSend (vless_handshake_packet uuid_b) true; EvRecv true; EvClose]
        \/ exists sni,
           snd (test_vless_link_run w lnk timeout)
           = [EvUrlparse lnk; EvSocket true; EvConnect ip (of_opt_int port) true;
              EvTls sni true;
              EvSend (vless_handshake_packet uuid_b) true; EvRecv true; EvClose])) /\
  (forall r, fst (test_trojan_link_run w lnk timeout) = inr r -> status r = alive ->
     exists p port password_hash ip sni,
       urlparse w lnk = inr p /\ Tester.port p = inr port /\
       trojan_password_hash (username p) = inr password_hash /\
       snd (test_trojan_link_run w lnk timeout)
         = [EvUrlparse lnk; EvConnect ip (of_opt_int port) true; EvTls sni true;
            EvSend (trojan_handshake_packet password_hash) true; EvRecv true;
            EvClosePlain; EvClose]).
Proof.
  split.
  - unfold test_vless_link_run.
    apply (run_probe_spec w lnk _ _
             (fun out tr => forall r, out = inr r -> status r = alive ->
                exists p port uuid_b ip,
                  urlparse w lnk = inr p /\ Tester.port p = inr port /\
                  uuid_bytes w (of_opt_str (username p)) = inr uuid_b /\
                  (tr = [EvUrlparse lnk; EvSocket true; EvConnect ip (of_opt_int port) true;
                         EvSend (vless_handshake_packet uuid_b) true; EvRecv true; EvClose]
                   \/ exists sni,
                      tr = [EvUrlparse lnk; EvSocket true;
                            EvConnect ip (of_opt_int port) true; EvTls sni true;
                            EvSend (vless_handshake_packet uuid_b) true; EvRecv true;
                            EvClose]))).
    unfold vless_body.
    repeat wp_step; intros r Hr Ha;
      first [ dead_exit Hr Ha
            | do 4 eexists; repeat (split; [first [reflexivity | eassumption] |]);
              first [ left; reflexivity | right; eexists; reflexivity ] ].
  - unfold test_trojan_link_run.
    apply (run_probe_spec w lnk _ _
             (fun out tr => forall r, out = inr r -> status r = alive ->
                exists p port password_hash ip sni,
                  urlparse w lnk = inr p /\ Tester.port p = inr port /\
                  trojan_password_hash (username p) = inr password_hash /\
                  tr = [EvUrlparse lnk; EvConnect ip (of_opt_int port) true; EvTls sni true;
                        EvSend (trojan_handshake_packet password_hash) true; EvRecv true;
                        EvClosePlain; EvClose])).
    unfold trojan_body.
    repeat wp_step; intros r Hr Ha;
      first [ dead_exit Hr Ha
            | do 5 eexists; repeat (split; [first [reflexivity | eassumption] |]); reflexivity ].
Qed.


(** X4. No probe leaks its socket and none closes what it never opened.
    In a run of [test_vless_link], [test_vmess_link] or [test_ss_link] the
    socket is closed exactly once, as the last call of the run, when
    [socket.socket] returned, and never otherwise; this holds on the alive
    path, after a failed resolution and after every handled exception. *)
Theorem socket_closed_exactly_when_opened (w : World) (lnk : string) (timeout : Z) :
  Forall (fun run : World -> string -> Z -> (exn + result) * list event =>
            (EvSocket true ∈ snd (run w lnk timeout) ->
               last (snd (run w lnk timeout)) = Some EvClose /\
               count_close (snd (run w lnk timeout)) = 1%nat) /\
            (EvSocket true ∉ snd (run w lnk timeout) ->
               count_close (snd (run w lnk timeout)) = 0%nat))
         [test_vless_link_run; test_vmess_link_run; test_ss_link_run].
Proof.
  each_probe;
    [ unfold test_vless_link_run | unfold test_vmess_link_run
    | unfold test_ss_link_run ];
    apply (run_probe_spec w lnk _ _
             (fun _ tr =>
                (EvSocket true ∈ tr -> last tr = Some EvClose /\ count_close tr = 1%nat) /\
                (EvSocket true ∉ tr -> count_close tr = 0%nat)));
    unfold vless_body, vmess_body, vmess_endpoint, ss_body, ss_endpoint;
    repeat wp_step;
    (split;
     [ intros Hin; first [ by (split; reflexivity) | in_trace_eval Hin ]
     | intros Hnot; first [ reflexivity | exfalso; apply Hnot; trace_mem ] ]).
Qed.

(** X5. [test_trojan_link] closes the plain socket of its [with] block
    exactly when [create_connection] returned, and closes the TLS socket,
    once and as the last call, exactly when the TLS handshake succeeded. *)
Theorem trojan_sockets_closed_exactly_when_opened
    (w : World) (lnk : string) (timeout : Z) :
  let tr := snd (test_trojan_link_run w lnk timeout) in
  ((exists ip port, EvConnect ip port true ∈ tr) <-> EvClosePlain ∈ tr) /\
  ((exists sni, EvTls sni true ∈ tr) ->
     last tr = Some EvClose /\ count_close tr = 1%nat) /\
  ((forall sni, EvTls sni true ∉ tr) -> count_close tr = 0%nat).
Proof.
  cbv zeta. unfold test_trojan_link_run.
  apply (run_probe_spec w lnk _ _
           (fun _ tr =>
              ((exists ip port, EvConnect ip port true ∈ tr) <-> EvClosePlain ∈ tr) /\
              ((exists sni, EvTls sni true ∈ tr) ->
                 last tr = Some EvClose /\ count_close tr = 1%nat) /\
              ((forall sni, EvTls sni true ∉ tr) -> count_close tr = 0%nat))).
  unfold trojan_body.
  repeat wp_step;
    (split;
     [ split;
       [ intros (ip' & port' & Hin); first [ trace_mem | in_trace_eval Hin ]
       | intros Hin; first [ do 2 eexists; trace_mem | in_trace_eval Hin ] ]
     | split;
       [ intros [sni' Hin]; first [ by (split; reflexivity) | in_trace_eval Hin ]
       | intros Hnot; first [ reflexivity | exfalso; eapply Hnot; trace_mem ] ] ]).
Qed.

(** X6. With a negative timeout the three probes that call
    [settimeout] never connect and report dead: [settimeout] raises
    [ValueError] before [connect] is reached. [test_vless_link] and
    [test_vmess_link] then report an unexpected error; [test_ss_link],
    whose first handler takes every [ValueError], reports the link as
    unparsable although it was parsed. *)
Theorem negative_timeout_never_connects (w : World) (lnk : string) (timeout : Z) :
  timeout < 0 ->
  Forall (fun '(run, reason) =>
            (forall ip port ok,
               EvConnect ip port ok
               ∉ snd ((run : World -> string -> Z -> (exn + result) * list event)
                        w lnk timeout)) /\
            (exists r, fst (run w lnk timeout) = inr r /\ status r = dead) /\
            (EvSocket true ∈ snd (run w lnk timeout) ->
               fst (run w lnk timeout) = inr (set_error (initial lnk) reason)))
         [(test_vless_link_run, "An unexpected error occurred: Timeout value out of range");
          (test_vmess_link_run, "An unexpected error occurred: Timeout value out of range");
          (test_ss_link_run, "Invalid or unparsable SS link format")].
Proof.
  intros Hneg.
  assert (Hdead : forall clauses e,
            (exists msg, except clauses e = Some msg) ->
            exists r,
              match except clauses e with
              | Some msg => inr (set_error (initial lnk) msg)
              | None => inl e
              end = inr r /\ status r = dead).
  { intros clauses e [msg ->]. by eexists. }
  each_probe;
    [ unfold test_vless_link_run;
      apply (run_probe_spec w lnk _ _
               (fun out tr =>
                  (forall ip port ok, EvConnect ip port ok ∉ tr) /\
                  (exists r, out = inr r /\ status r = dead) /\
                  (EvSocket true ∈ tr ->
                     out = inr (set_error (initial lnk)
                                  "An unexpected error occurred: Timeout value out of range"))))
    | unfold test_vmess_link_run;
      apply (run_probe_spec w lnk _ _
               (fun out tr =>
                  (forall ip port ok, EvConnect ip port ok ∉ tr) /\
                  (exists r, out = inr r /\ status r = dead) /\
                  (EvSocket true ∈ tr ->
                     out = inr (set_error (initial lnk)
                                  "An unexpected error occurred: Timeout value out of range"))))
    | unfold test_ss_link_run;
      apply (run_probe_spec w lnk _ _
               (fun out tr =>
                  (forall ip port ok, EvConnect ip port ok ∉ tr) /\
                  (exists r, out = inr r /\ status r = dead) /\
                  (EvSocket true ∈ tr ->
                     out = inr (set_error (initial lnk)
                                  "Invalid or unparsable SS link format")))) ];
    unfold vless_body, vmess_body, vmess_endpoint, ss_body, ss_endpoint;
    repeat wp_step; try lia;
    (split; [intros ip' port' ok' Hin; in_trace_eval Hin |]);
    (split;
     [ first [ apply Hdead;
               first [ apply vless_handlers_total | apply vmess_handlers_total
                     | apply ss_handlers_total ]
             | by eexists ]
     | intros Hin; first [ reflexivity | in_trace_eval Hin ] ]).
Qed.

(** X7. [test_vless_link] negotiates TLS only when the first value of the
    [security] parameter of the link is [tls] or [xtls], and the server
    name it offers is the first value of the [sni] parameter, or the host
    of the link when there is none. A query that [parse_qs] rejects counts
    as no parameters, hence no TLS. *)
Theorem vless_tls_only_when_requested (w : World) (lnk : string) (timeout : Z) :
  (forall sni ok, EvTls sni ok ∈ snd (test_vless_link_run w lnk timeout) ->
     exists p security,
       urlparse w lnk = inr p /\
       param0 (parse_qs_safely w (query p)) "security" (PyStr "none") = inr security /\
       (security = PyStr "tls" \/ security = PyStr "xtls") /\
       param0 (parse_qs_safely w (query p)) "sni" (of_opt_str (hostname p)) = inr sni) /\
  (forall p e, urlparse w lnk = inr p -> parse_qs w (query p) = inl e ->
     forall sni ok, EvTls sni ok ∉ snd (test_vless_link_run w lnk timeout)).
Proof.
  assert (Hmain : forall sni ok, EvTls sni ok ∈ snd (test_vless_link_run w lnk timeout) ->
     exists p security,
       urlparse w lnk = inr p /\
       param0 (parse_qs_safely w (query p)) "security" (PyStr "none") = inr security /\
       (security = PyStr "tls" \/ security = PyStr "xtls") /\
       param0 (parse_qs_safely w (query p)) "sni" (of_opt_str (hostname p)) = inr sni).
  { unfold test_vless_link_run.
    apply (run_probe_spec w lnk _ _
             (fun _ tr => forall sni ok, EvTls sni ok ∈ tr ->
                exists p security,
                  urlparse w lnk = inr p /\
                  param0 (parse_qs_safely w (query p)) "security" (PyStr "none")
                    = inr security /\
                  (security = PyStr "tls" \/ security = PyStr "xtls") /\
                  param0 (parse_qs_safely w (query p)) "sni" (of_opt_str (hostname p))
                    = inr sni)).
    unfold vless_body.
    repeat wp_step; intros sni' ok' Hin; in_trace Hin; simplify_eq;
      do 2 eexists; (split; [reflexivity |]); (split; [eassumption |]);
      (split; [| eassumption]);
      match goal with
      | H : eq_str ?v "tls" || eq_str ?v "xtls" = true |- _ =>
          destruct v; try discriminate H;
          apply orb_true_iff in H as [H|H]; apply String.eqb_eq in H; subst; auto
      end. }
  split; [exact Hmain |].
  intros p e Hp Hq sni ok Hin.
  destruct (Hmain sni ok Hin) as (p' & security & Hp' & Hsec & Htls & _).
  rewrite Hp in Hp'. injection Hp' as <-.
  unfold parse_qs_safely in Hsec. rewrite Hq in Hsec.
  unfold param0 in Hsec. rewrite lookup_empty in Hsec.
  injection Hsec as <-. by destruct Htls.
Qed.

(** X8. [test_trojan_link] attempts the TLS handshake on every connection
    that [create_connection] opened, whatever the parameters of the link;
    the server name is the first value of the [sni] parameter, or the
    host when there is none. *)
Theorem trojan_tls_on_every_connection (w : World) (lnk : string) (timeout : Z) :
  forall ip port,
    EvConnect ip port true ∈ snd (test_trojan_link_run w lnk timeout) ->
    exists p sni ok,
      urlparse w lnk = inr p /\
      param0 (parse_qs_safely w (query p)) "sni" (of_opt_str (hostname p)) = inr sni /\
      EvTls sni ok ∈ snd (test_trojan_link_run w lnk timeout).
Proof.
  unfold test_trojan_link_run.
  apply (run_probe_spec w lnk _ _
           (fun _ tr => forall ip port, EvConnect ip port true ∈ tr ->
              exists p sni ok,
                urlparse w lnk = inr p /\
                param0 (parse_qs_safely w (query p)) "sni" (of_opt_str (hostname p))
                  = inr sni /\
                EvTls sni ok ∈ tr)).
  unfold trojan_body.
  repeat wp_step; intros ip' port' Hin; in_trace_eval Hin;
    do 3 eexists; (split; [reflexivity |]); (split; [eassumption |]); trace_mem.
Qed.

(** X9. When a call of the socket layer fails in [test_vless_link],
    [test_vmess_link] or [test_ss_link], be it [socket.socket], [connect],
    the TLS handshake, [send] or [recv], the probe returns dead with the
    text its [except] clauses give for the very exception that call
    raised. *)
Theorem socket_failure_sets_the_reason (w : World) (lnk : string) (timeout : Z) :
  Forall (fun '(run, clauses) =>
            let out := fst ((run : World -> string -> Z -> (exn + result) * list event)
                              w lnk timeout) in
            let tr := snd (run w lnk timeout) in
            (EvSocket false ∈ tr -> reason_of clauses lnk (socket_socket w) out) /\
            (forall ip port, EvConnect ip port false ∈ tr ->
               reason_of clauses lnk (outcome (connect w ip port timeout)) out) /\
            (forall sni, EvTls sni false ∈ tr ->
               reason_of clauses lnk (outcome (wrap_socket w sni timeout)) out) /\
            (forall d, EvSend d false ∈ tr ->
               reason_of clauses lnk (outcome (send w d timeout)) out) /\
            (EvRecv false ∈ tr -> reason_of clauses lnk (outcome (recv w timeout)) out))
         [(test_vless_link_run, vless_handlers); (test_vmess_link_run, vmess_handlers);
          (test_ss_link_run, ss_handlers)].
Proof.
  assert (Hreason : forall clauses o e,
            (exists msg, except clauses e = Some msg) -> o = Some e ->
            reason_of clauses lnk o
              match except clauses e with
              | Some msg => inr (set_error (initial lnk) msg)
              | None => inl e
              end).
  { intros clauses o e [msg Hmsg] ->. exists e, msg. by rewrite Hmsg. }
  each_probe; cbv zeta;
    [ unfold test_vless_link_run | unfold test_vmess_link_run
    | unfold test_ss_link_run ];
    match goal with
    | |- context [run_probe _ _ _ ?clauses] =>
        apply (run_probe_spec w lnk _ _
                 (fun out tr =>
                    (EvSocket false ∈ tr -> reason_of clauses lnk (socket_socket w) out) /\
                    (forall ip port, EvConnect ip port false ∈ tr ->
                       reason_of clauses lnk (outcome (connect w ip port timeout)) out) /\
                    (forall sni, EvTls sni false ∈ tr ->
                       reason_of clauses lnk (outcome (wrap_socket w sni timeout)) out) /\
                    (forall d, EvSend d false ∈ tr ->
                       reason_of clauses lnk (outcome (send w d timeout)) out) /\
                    (EvRecv false ∈ tr ->
                       reason_of clauses lnk (outcome (recv w timeout)) out)))
    end;
    unfold vless_body, vmess_body, vmess_endpoint, ss_body, ss_endpoint;
    repeat wp_step;
    (split; [intros Hin | split; [intros ? ? Hin | split; [intros ? Hin |
       split; [intros ? Hin | intros Hin]]]]);
    in_trace_eval Hin; simplify_eq;
    (apply Hreason;
     [ first [ apply vless_handlers_total | apply vmess_handlers_total
             | apply ss_handlers_total ]
     | first [ assumption | reflexivity ] ]).
Qed.

End further_probe_properties.

(** * Further properties of the orchestrator *)

Section further_orchestrator_properties.
Import Py Tester Spec Orchestrator Checks.

(** X10. The keys of the mapping [test_links_ping] returns are exactly the
    supported tags that the input maps to a non-empty list: no key is
    invented and the input keys are not all kept. *)
Theorem test_links_ping_keys
    envs (cl : gmap string (list string)) max_workers timeout :
  0 < max_workers ->
  exists out,
    test_links_ping envs cl max_workers timeout = inr out /\
    forall tag,
      is_Some (out !! tag) <->
      tag ∈ supported_tags /\ exists links, cl !! tag = Some links /\ links <> [].
Proof.
  intros Hmw.
  destruct (test_links_ping_lookup envs cl max_workers timeout Hmw) as (out & Hout & Hlk).
  exists out. split; [done |]. intros tag. rewrite Hlk. split.
  - intros [rs Hrs]. destruct (cl !! tag) as [links|] eqn:Hcl; [| done].
    simpl in Hrs. unfold results_for in Hrs.
    destruct links as [|l links]; [done |].
    destruct (test_function_map !! tag) as [f|] eqn:Hf; [| done].
    split; [apply supported_lookup; by eexists |]. by eexists.
  - intros (Htag & links & -> & Hne). simpl.
    destruct (results_for_supported envs timeout tag links Htag Hne) as (rs & -> & _).
    by eexists.
Qed.

(** X11. What is returned under a tag depends on the list submitted under
    that tag only: two batches that agree on a tag get the same results
    under it, whatever else they contain and whatever the number of
    workers, as long as each probe meets the same world. *)
Theorem test_links_ping_local
    envs (cl1 cl2 : gmap string (list string)) workers1 workers2 timeout tag :
  0 < workers1 -> 0 < workers2 ->
  cl1 !! tag = cl2 !! tag ->
  exists out1 out2,
    test_links_ping envs cl1 workers1 timeout = inr out1 /\
    test_links_ping envs cl2 workers2 timeout = inr out2 /\
    out1 !! tag = out2 !! tag.
Proof.
  intros H1 H2 Heq.
  destruct (test_links_ping_lookup envs cl1 workers1 timeout H1) as (out1 & Ho1 & Hl1).
  destruct (test_links_ping_lookup envs cl2 workers2 timeout H2) as (out2 & Ho2 & Hl2).
  exists out1, out2. repeat split; [done.. |]. by rewrite Hl1, Hl2, Heq.
Qed.

End further_orchestrator_properties.

(** * Properties of [utils.py] and of the bookkeeping of [main.py] *)

Module UtilsFacts.
Import Py Base64 Tester Spec Utils Checks Base64Facts.

Lemma prefix_vmess payload : String.prefix "vmess://" ("vmess://" +:+ payload) = true.
Proof.
  change ("vmess://" +:+ payload)
    with (String "v" (String "m" (String "e" (String "s" (String "s"
           (String ":" (String "/" (String "/" payload)))))))).
  cbn. by destruct payload.
Qed.

Lemma vmess_link_inj p1 p2 : "vmess://" +:+ p1 = "vmess://" +:+ p2 -> p1 = p2.
Proof.
  change ("vmess://" +:+ p1)
    with (String "v" (String "m" (String "e" (String "s" (String "s"
           (String ":" (String "/" (String "/" p1)))))))).
  change ("vmess://" +:+ p2)
    with (String "v" (String "m" (String "e" (String "s" (String "s"
           (String ":" (String "/" (String "/" p2)))))))).
  by intros [= ->].
Qed.

(** The shared decoding lines on base64 text in the standard alphabet. *)
Lemma decode_config_standard w J k :
  Forall byte J -> (k <= b2a_npad J)%nat ->
  decode_config w ("vmess://" +:+ b64encode_pad k J)
  = json_loads w (utf8_decode_ignore w J).
Proof.
  intros HJ Hk. destruct (b64decode_repadded J k HJ Hk) as [Hpad Hdec].
  unfold decode_config, mbind, exn_bind.
  rewrite split1_snd_vmess. cbn zeta in Hpad. by rewrite Hpad, Hdec.
Qed.

(** [categorize_links] one link further. *)
Lemma categorize_links_snoc w lib links lnk :
  categorize_links w lib (links ++ [lnk])
  = categorize_step w lib (categorize_links w lib links) lnk.
Proof. unfold categorize_links. by rewrite fold_left_app. Qed.

Lemma with_scheme_snoc w lib tag links lnk :
  with_scheme w lib tag (links ++ [lnk])
  = (with_scheme w lib tag links
     ++ if has_scheme w lib tag lnk then [lnk] else [])%list.
Proof.
  unfold with_scheme. rewrite List.filter_app. simpl.
  by destruct (has_scheme w lib tag lnk).
Qed.

Lemma default_entry l : default [] (entry l) = l.
Proof. by destruct l. Qed.

Lemma entry_snoc l x : entry (l ++ [x]) = Some (l ++ [x])%list.
Proof. by destruct l. Qed.

Lemma categorize_links_lookup w lib links m :
  categorize_links w lib links = inr m ->
  forall tag,
    m !! tag = if String.eqb tag "" then None else entry (with_scheme w lib tag links).
Proof.
  revert m. induction links as [|lnk links IH] using rev_ind; intros m Hm tag.
  - injection Hm as <-. rewrite lookup_empty. by destruct (String.eqb tag "").
  - rewrite categorize_links_snoc in Hm. rewrite with_scheme_snoc.
    destruct (categorize_links w lib links) as [e|m0]; [done |].
    specialize (IH m0 eq_refl). unfold categorize_step in Hm. unfold has_scheme.
    destruct (urlparse w lnk) as [e|p].
    + destruct (except _ e); [| done]. injection Hm as <-.
      by rewrite IH, app_nil_r.
    + destruct (String.eqb (scheme lib lnk) "") eqn:Hempty.
      * injection Hm as <-. rewrite IH. apply String.eqb_eq in Hempty.
        rewrite Hempty. destruct (String.eqb_spec tag "") as [->|Hne]; [done |].
        destruct (String.eqb_spec "" tag) as [<-|_]; [done |]. by rewrite app_nil_r.
      * injection Hm as <-. apply String.eqb_neq in Hempty.
        destruct (String.eqb_spec (scheme lib lnk) tag) as [<-|Hne].
        -- rewrite lookup_insert_eq, IH.
           destruct (String.eqb_spec (scheme lib lnk) "") as [?|_]; [done |].
           by rewrite default_entry, entry_snoc.
        -- rewrite lookup_insert_ne by done. by rewrite IH, app_nil_r.
Qed.

(** The fingerprint of a VMess link that decodes to a JSON object. *)
Lemma fingerprint_of_object w lib payload d :
  decode_config w ("vmess://" +:+ payload) = inr (PyDict d) ->
  get_link_fingerprint w lib ("vmess://" +:+ payload)
  = inr ("vmess_" +:+ py_str w (dict_get d "add" PyNone)
         +:+ "_" +:+ py_str w (dict_get d "port" PyNone)
         +:+ "_" +:+ py_str w (dict_get d "id" PyNone)).
Proof.
  intros Hdec. unfold get_link_fingerprint, fingerprint_body.
  by rewrite prefix_vmess, Hdec.
Qed.

End UtilsFacts.

Section utils_properties.
Import Py Base64 Tester Spec Orchestrator Utils Checks Base64Facts UtilsFacts.

(** X12. [categorize_links] groups the links by the scheme [urlparse]
    reads, keeping their order: under a tag stands the list of the links
    with that scheme, in the order of the input. A link without scheme or
    on which [urlparse] raises [ValueError] is left out, the empty scheme
    is never a key, and no key maps to an empty list. The function
    returns as long as [urlparse] raises nothing but [ValueError] or
    [IndexError]. *)
Theorem categorize_links_groups_by_scheme (w : World) (lib : Lib) (links : list string) :
  ((forall lnk e, lnk ∈ links -> urlparse w lnk = inl e ->
      existsb (isinstance e) [H_ValueError; H_IndexError] = true) ->
   exists m, categorize_links w lib links = inr m) /\
  (forall m, categorize_links w lib links = inr m ->
     m !! "" = None /\
     (forall tag l, m !! tag = Some l -> l <> [] /\ l = with_scheme w lib tag links) /\
     (forall tag, tag <> "" -> with_scheme w lib tag links <> [] ->
        m !! tag = Some (with_scheme w lib tag links))).
Proof.
  split.
  - induction links as [|lnk links IH] using rev_ind; intros Hexn.
    + by eexists.
    + rewrite categorize_links_snoc.
      destruct IH as [m0 ->].
      { intros l e Hl. apply Hexn. apply elem_of_app. by left. }
      unfold categorize_step.
      destruct (urlparse w lnk) as [e|p] eqn:Hp.
      * assert (Hcls : existsb (isinstance e) [H_ValueError; H_IndexError] = true).
        { apply (Hexn lnk); [| done]. apply elem_of_app. right. apply list_elem_of_here. }
        cbn [except]. rewrite Hcls. by eexists.
      * destruct (String.eqb (scheme lib lnk) ""); by eexists.
  - intros m Hm. pose proof (categorize_links_lookup w lib links m Hm) as Hlk.
    split; [by rewrite Hlk |]. split.
    + intros tag l Hl. rewrite Hlk in Hl.
      destruct (String.eqb tag ""); [done |].
      unfold entry in Hl. destruct (with_scheme w lib tag links); [done |].
      by injection Hl as <-.
    + intros tag Hne Hsome. rewrite Hlk.
      destruct (String.eqb_spec tag ""); [done |].
      unfold entry. by destruct (with_scheme w lib tag links).
Qed.

(** X13. The pipeline of [main]: when the links grouped by
    [categorize_links] are handed to [test_links_ping], every link whose
    scheme is a supported tag gets a terminal result under that tag, in
    the order of the input, and nothing else gets one: a tag is a key of
    the outcome exactly when it is supported and some link has it as
    scheme. *)
Theorem categorize_then_test (w : World) (lib : Lib) envs (links : list string)
    (cl : gmap string (list string)) max_workers timeout :
  0 < max_workers ->
  categorize_links w lib links = inr cl ->
  exists out,
    test_links_ping envs cl max_workers timeout = inr out /\
    forall tag,
      (tag ∈ supported_tags -> with_scheme w lib tag links <> [] ->
         exists rs, out !! tag = Some rs /\
                    link <$> rs = with_scheme w lib tag links /\
                    Forall (fun r => terminal (link r) r) rs) /\
      (tag ∉ supported_tags \/ with_scheme w lib tag links = [] -> out !! tag = None).
Proof.
  intros Hmw Hcl.
  pose proof (categorize_links_lookup w lib links cl Hcl) as Hlk.
  destruct (test_links_ping_lookup envs cl max_workers timeout Hmw) as (out & Hout & Hres).
  exists out. split; [done |]. intros tag. rewrite Hres, Hlk. split.
  - intros Htag Hne.
    destruct (String.eqb_spec tag "") as [->|_].
    { unfold supported_tags in Htag. by repeat (apply elem_of_cons in Htag as [?|Htag]);
        [.. | apply elem_of_nil in Htag]. }
    unfold entry. destruct (with_scheme w lib tag links) as [|l ls] eqn:Hws; [done |].
    destruct (results_for_supported envs timeout tag (l :: ls) Htag Hne)
      as (rs & Hrs & Hrest).
    exists rs. split; [exact Hrs | exact Hrest].
  - intros [Hns|Hempty].
    + destruct (String.eqb tag ""); [done |].
      destruct (entry (with_scheme w lib tag links)) as [l|]; [| done].
      change (results_for envs timeout tag l = None).
      unfold results_for. destruct l; [done |].
      destruct (test_function_map !! tag) eqn:Hf; [| done].
      exfalso. apply Hns, supported_lookup. by eexists.
    + rewrite Hempty. by destruct (String.eqb tag "").
Qed.

(** X14. The fingerprint of a VMess link whose payload encodes a JSON
    object does not depend on how much of the base64 padding the link
    carries: with all, some or none of the pad characters it is
    [vmess_<add>_<port>_<id>], read from the object. *)
Theorem fingerprint_ignores_padding
    (w : World) (lib : Lib) (J : list Z) (k : nat) (d : list (string * pyval)) :
  Forall byte J -> (k <= b2a_npad J)%nat ->
  json_loads w (utf8_decode_ignore w J) = inr (PyDict d) ->
  get_link_fingerprint w lib ("vmess://" +:+ b64encode_pad k J)
  = inr ("vmess_" +:+ py_str w (dict_get d "add" PyNone)
         +:+ "_" +:+ py_str w (dict_get d "port" PyNone)
         +:+ "_" +:+ py_str w (dict_get d "id" PyNone)).
Proof.
  intros HJ Hk Hd. unfold get_link_fingerprint, fingerprint_body.
  rewrite prefix_vmess, decode_config_standard, Hd by done. reflexivity.
Qed.

(** X15. A VMess link that does not decode to a JSON object is its own
    fingerprint, whatever goes wrong (no separator, bad base64, bad JSON,
    JSON that is not an object). Two such links therefore have the same
    fingerprint only when they are the same link. *)
Theorem undecodable_vmess_is_its_own_fingerprint
    (w : World) (lib : Lib) (p1 p2 : string) :
  (forall d, decode_config w ("vmess://" +:+ p1) <> inr (PyDict d)) ->
  (forall d, decode_config w ("vmess://" +:+ p2) <> inr (PyDict d)) ->
  get_link_fingerprint w lib ("vmess://" +:+ p1) = inr ("vmess://" +:+ p1) /\
  (get_link_fingerprint w lib ("vmess://" +:+ p1)
   = get_link_fingerprint w lib ("vmess://" +:+ p2) -> p1 = p2).
Proof.
  assert (Hself : forall p,
            (forall d, decode_config w ("vmess://" +:+ p) <> inr (PyDict d)) ->
            get_link_fingerprint w lib ("vmess://" +:+ p) = inr ("vmess://" +:+ p)).
  { intros p Hp. unfold get_link_fingerprint, fingerprint_body.
    rewrite prefix_vmess.
    destruct (decode_config w ("vmess://" +:+ p)) as [e|config] eqn:Hdec.
    - cbn. by destruct e as [[] msg].
    - destruct config; try reflexivity. by destruct (Hp d). }
  intros H1 H2. split; [by apply Hself |].
  rewrite !Hself by done. intros Heq. apply vmess_link_inj. congruence.
Qed.

End utils_properties.

Module UtilsFacts2.
Import Py Base64 Tester Spec Utils Checks Base64Facts UtilsFacts.

(** [rstrip] of base64 text removes exactly the padding. *)
Lemma rstrip_pad_cons c l :
  rstrip_pad (c :: l)
  = match rstrip_pad l with
    | [] => if c =? 61 then [] else [c]
    | r => c :: r
    end.
Proof. reflexivity. Qed.

Lemma rstrip_pad_repeat k : rstrip_pad (repeat 61 k) = [].
Proof. induction k as [|k IH]; [done |]. cbn [repeat]. by rewrite rstrip_pad_cons, IH. Qed.

Lemma rstrip_pad_app l r :
  rstrip_pad r = [] -> Forall (fun c => (c =? BASE64_PAD) = false) l ->
  rstrip_pad (l ++ r) = l.
Proof.
  intros Hr. induction 1 as [|c l Hc _ IH]; [done |].
  cbn [app]. rewrite rstrip_pad_cons, IH. unfold BASE64_PAD in Hc.
  destruct l; by rewrite ?Hc.
Qed.

(** What holds of the image of every sextet holds of the encoder's text. *)
Lemma b2a_data_Forall (P : Z -> Prop) b :
  (forall v, 0 <= v < 64 -> P (table_b2a_base64 v)) ->
  Forall byte b -> Forall P (b2a_data b).
Proof.
  intros HP. induction b as [|x|x y|x y z b IH] using list_ind3; intros Hb.
  - constructor.
  - apply Forall_cons in Hb as [Hx _].
    destruct (sextets_first x 0 Hx byte_0) as (H0 & _).
    destruct (sextets_one x Hx) as (H1 & _).
    repeat constructor; by apply HP.
  - apply Forall_cons in Hb as [Hx Hb]. apply Forall_cons in Hb as [Hy _].
    destruct (sextets_first x y Hx Hy) as (H0 & H1 & _).
    destruct (sextets_two y Hy) as (H2 & _).
    repeat constructor; by apply HP.
  - apply Forall_cons in Hb as [Hx Hb]. apply Forall_cons in Hb as [Hy Hb].
    apply Forall_cons in Hb as [Hz Hb].
    destruct (sextets_first x y Hx Hy) as (H0 & H1 & _).
    destruct (sextets_last y z Hy Hz) as (H2 & H3 & _).
    change (b2a_data (x :: y :: z :: b)) with
      (table_b2a_base64 (s0 x) :: table_b2a_base64 (s1 x y)
       :: table_b2a_base64 (s2 y z) :: table_b2a_base64 (s3 z) :: b2a_data b).
    repeat (constructor; [by apply HP |]). by apply IH.
Qed.

Lemma b64text_bytes b k : Forall byte b -> Forall byte (b2a_data b ++ repeat BASE64_PAD k).
Proof.
  intros Hb. apply Forall_app. split.
  - apply b2a_data_Forall; [| done]. intros v Hv.
    destruct (table_a2b_b2a v Hv) as (_ & _ & H). unfold byte. lia.
  - apply Forall_forall. intros c Hc.
    apply list_elem_of_In in Hc. apply repeat_spec in Hc as ->. by unfold byte, BASE64_PAD.
Qed.

Lemma rstrip_eq_b64encode b :
  Forall byte b -> rstrip_eq (b64encode b) = b64encode_pad 0 b.
Proof.
  intros Hb. unfold rstrip_eq, b64encode, b64encode_pad.
  rewrite ords_chrs by by apply b64text_bytes.
  rewrite rstrip_pad_app, app_nil_r; [done | apply rstrip_pad_repeat |].
  apply b2a_data_Forall; [| done]. intros v Hv. by destruct (table_a2b_b2a v Hv).
Qed.

(** Code points of a string, and their UTF-8 encoding, are bytes. *)
Lemma ords_bytes s : Forall byte (ords s).
Proof.
  unfold ords. induction s as [|a s IH]; [constructor |].
  cbn. constructor; [| done]. unfold byte, ord.
  pose proof (N_ascii_bounded a). lia.
Qed.

Lemma utf8_encode_bytes s : Forall byte (utf8_encode s).
Proof.
  unfold utf8_encode. induction (ords_bytes s) as [|c l Hc _ IH]; [constructor |].
  cbn [flat_map]. apply Forall_app. split; [| done].
  pose proof (forall_below 256
    (fun c => if c <? 128 then true
              else (0 <=? Z.lor 192 (Z.shiftr c 6)) && (Z.lor 192 (Z.shiftr c 6) <? 256)
                   && (0 <=? Z.lor 128 (Z.land c 63)) && (Z.lor 128 (Z.land c 63) <? 256))
    ltac:(by vm_compute) c Hc) as H.
  destruct (c <? 128) eqn:Hlt.
  - constructor; [exact Hc | constructor].
  - cbv beta in H. rewrite Hlt in H. repeat (apply andb_true_iff in H as [H ?]).
    repeat (constructor; [unfold byte; lia |]). constructor.
Qed.

(** Setting one key of a dict leaves the others as they were. *)
Lemma dict_get_set_ne d k key v dflt :
  k <> key -> dict_get (dict_set d k v) key dflt = dict_get d key dflt.
Proof.
  intros Hne. induction d as [|[k0 x] d IH]; cbn.
  - by destruct (String.eqb_spec k key).
  - destruct (String.eqb_spec k0 k) as [->|Hk0]; cbn.
    + by destruct (String.eqb_spec k key).
    + by rewrite IH.
Qed.

Lemma dict_get_set_eq d k v dflt : dict_get (dict_set d k v) k dflt = v.
Proof.
  induction d as [|[k0 x] d IH]; cbn.
  - by rewrite String.eqb_refl.
  - destruct (String.eqb_spec k0 k) as [->|Hk0]; cbn.
    + by rewrite String.eqb_refl.
    + by destruct (String.eqb_spec k0 k).
Qed.

(** The [except Exception] of the two helpers catches everything. *)
Lemma get_link_fingerprint_returns w lib uri :
  exists fp, get_link_fingerprint w lib uri = inr fp.
Proof.
  unfold get_link_fingerprint.
  destruct (fingerprint_body w lib uri) as [e|s]; [| by eexists].
  destruct e as [[] msg]; by eexists.
Qed.

Lemma format_and_replace_remark_returns w lib lnk new_name ping :
  exists out, format_and_replace_remark w lib lnk new_name ping = inr out.
Proof.
  unfold format_and_replace_remark.
  destruct (remark_body w lib lnk new_name ping) as [e|s]; [| by eexists].
  destruct e as [[] msg]; by eexists.
Qed.

(** The VMess branch of [format_and_replace_remark] when every step
    returns. *)
Lemma remark_vmess w lib payload new_name ping d s :
  decode_config w ("vmess://" +:+ payload) = inr (PyDict d) ->
  json_dumps lib (PyDict (dict_set d "ps" (remark w new_name ping))) = inr s ->
  format_and_replace_remark w lib ("vmess://" +:+ payload) new_name ping
  = inr ("vmess://" +:+ b64encode_pad 0 (utf8_encode s)).
Proof.
  intros Hdec Hdumps. unfold format_and_replace_remark, remark_body.
  rewrite prefix_vmess, Hdec. cbn [mbind exn_bind set_item].
  unfold remark in Hdumps. rewrite Hdumps. cbn [mbind exn_bind].
  by rewrite rstrip_eq_b64encode by apply utf8_encode_bytes.
Qed.

End UtilsFacts2.

Section remark_properties.
Import Py Base64 Tester Spec Utils Checks Base64Facts UtilsFacts UtilsFacts2.

(** X16. Renaming a VMess link whose payload decodes to a JSON object
    gives the scheme followed by the base64 text of the new JSON with its
    padding stripped, and the decoding lines that the tester and the
    helpers share restore the padding and read the new JSON back: the
    renamed link decodes to whatever [json.loads] makes of the bytes that
    were encoded. *)
Theorem renamed_vmess_link_decodes
    (w : World) (lib : Lib) (payload new_name : string) (ping : pyval)
    (d : list (string * pyval)) (s : string) :
  decode_config w ("vmess://" +:+ payload) = inr (PyDict d) ->
  json_dumps lib (PyDict (dict_set d "ps" (remark w new_name ping))) = inr s ->
  exists out,
    format_and_replace_remark w lib ("vmess://" +:+ payload) new_name ping = inr out /\
    out = "vmess://" +:+ b64encode_pad 0 (utf8_encode s) /\
    decode_config w out = json_loads w (utf8_decode_ignore w (utf8_encode s)).
Proof.
  intros Hdec Hdumps. eexists. split; [by eapply remark_vmess |]. split; [done |].
  apply decode_config_standard; [apply utf8_encode_bytes | lia].
Qed.

(** X17. Renaming keeps the fingerprint of a VMess link: when the JSON
    that was written is read back as the object that was dumped, the
    renamed link has the fingerprint of the original, since only the
    member [ps] was set. *)
Theorem renaming_keeps_vmess_fingerprint
    (w : World) (lib : Lib) (payload new_name : string) (ping : pyval)
    (d : list (string * pyval)) (s : string) :
  decode_config w ("vmess://" +:+ payload) = inr (PyDict d) ->
  json_dumps lib (PyDict (dict_set d "ps" (remark w new_name ping))) = inr s ->
  json_loads w (utf8_decode_ignore w (utf8_encode s))
  = inr (PyDict (dict_set d "ps" (remark w new_name ping))) ->
  exists out,
    format_and_replace_remark w lib ("vmess://" +:+ payload) new_name ping = inr out /\
    get_link_fingerprint w lib out = get_link_fingerprint w lib ("vmess://" +:+ payload).
Proof.
  intros Hdec Hdumps Hloads. eexists. split; [by eapply remark_vmess |].
  rewrite (fingerprint_of_object _ _ _ _ Hdec).
  assert (Hdec' : decode_config w ("vmess://" +:+ b64encode_pad 0 (utf8_encode s))
                  = inr (PyDict (dict_set d "ps" (remark w new_name ping)))).
  { rewrite decode_config_standard; [done | apply utf8_encode_bytes | lia]. }
  rewrite (fingerprint_of_object _ _ _ _ Hdec').
  by rewrite !dict_get_set_ne.
Qed.

(** X18. The two helpers with [except Exception] never raise, and on a
    VMess link whose payload does not decode to a JSON object the
    renaming leaves the link as it is. *)
Theorem helpers_never_raise
    (w : World) (lib : Lib) (lnk new_name : string) (ping : pyval) :
  (exists fp, get_link_fingerprint w lib lnk = inr fp) /\
  (exists out, format_and_replace_remark w lib lnk new_name ping = inr out) /\
  forall payload,
    (forall d, decode_config w ("vmess://" +:+ payload) <> inr (PyDict d)) ->
    format_and_replace_remark w lib ("vmess://" +:+ payload) new_name ping
    = inr ("vmess://" +:+ payload).
Proof.
  split; [apply get_link_fingerprint_returns |].
  split; [apply format_and_replace_remark_returns |].
  intros payload Hno. unfold format_and_replace_remark, remark_body.
  rewrite prefix_vmess.
  destruct (decode_config w ("vmess://" +:+ payload)) as [e|config] eqn:Hdec.
  - cbn. by destruct e as [[] msg].
  - destruct config; try reflexivity. by destruct (Hno d).
Qed.

End remark_properties.

Section bookkeeping_properties.
Import Py Base64 Tester Spec Utils Checks Base64Facts UtilsFacts UtilsFacts2.

(** X19. The loop of [main] over what a scraper found always completes
    and keeps the table of found links consistent: every recorded link is
    filed under its own fingerprint; an entry that was there stays as it
    was, so of several links with one fingerprint the first is kept; every
    link that was found has its fingerprint in the table; and every entry
    was there before or was found. *)
Theorem record_found_keeps_first
    (w : World) (lib : Lib) (all_found_links : gmap string (string * string))
    (scraper_result : list (string * string)) :
  recorded_ok w lib all_found_links ->
  exists m,
    record_found w lib all_found_links scraper_result = inr m /\
    recorded_ok w lib m /\
    (forall fp v, all_found_links !! fp = Some v -> m !! fp = Some v) /\
    (forall lnk src, (lnk, src) ∈ scraper_result ->
       exists fp, get_link_fingerprint w lib lnk = inr fp /\ is_Some (m !! fp)) /\
    (forall fp v, m !! fp = Some v ->
       all_found_links !! fp = Some v \/ v ∈ scraper_result).
Proof.
  unfold record_found. revert all_found_links.
  induction scraper_result as [|[lnk src] rest IH]; intros m0 Hok.
  - exists m0. repeat split; [done | done | | by left].
    intros lnk src Hin. by apply elem_of_nil in Hin.
  - cbn [fold_left]. unfold record_step at 2. cbn [mbind exn_bind].
    destruct (get_link_fingerprint_returns w lib lnk) as [fp Hfp]. rewrite Hfp.
    unfold mbind, exn_bind.
    destruct (m0 !! fp) as [v0|] eqn:Hlook.
    + destruct (IH m0 Hok) as (m & Hm & Hokm & Hkeep & Hcover & Horigin).
      exists m. repeat split; [done | done | done | |].
      * intros lnk' src' Hin. apply elem_of_cons in Hin as [[= -> ->]|Hin].
        -- exists fp. split; [done |]. rewrite (Hkeep fp v0 Hlook). by eexists.
        -- by eapply Hcover.
      * intros fp' v Hv. destruct (Horigin fp' v Hv) as [H|H]; [by left |].
        right. by apply elem_of_cons; right.
    + assert (Hok' : recorded_ok w lib (<[fp := (lnk, src)]> m0)).
      { intros fp' lnk' src' Hl. destruct (decide (fp = fp')) as [<-|Hne].
        - rewrite lookup_insert_eq in Hl. by injection Hl as <- <-.
        - rewrite lookup_insert_ne in Hl by done. by eapply Hok. }
      destruct (IH _ Hok') as (m & Hm & Hokm & Hkeep & Hcover & Horigin).
      exists m. repeat split; [done | done | | |].
      * intros fp' v Hv. apply Hkeep. rewrite lookup_insert_ne; [done |].
        intros <-. by rewrite Hlook in Hv.
      * intros lnk' src' Hin. apply elem_of_cons in Hin as [[= -> ->]|Hin].
        -- exists fp. split; [done |].
           rewrite (Hkeep fp (lnk, src)); [by eexists | by rewrite lookup_insert_eq].
        -- by eapply Hcover.
      * intros fp' v Hv. destruct (Horigin fp' v Hv) as [H|H].
        -- destruct (decide (fp = fp')) as [<-|Hne].
           ++ rewrite lookup_insert_eq in H. injection H as <-.
              right. by apply elem_of_cons; left.
           ++ rewrite lookup_insert_ne in H by done. by left.
        -- right. by apply elem_of_cons; right.
Qed.

End bookkeeping_properties.

Module FilenameFacts.
Import Py Utils Base64Facts UtilsFacts2.

Lemma ords_append s t : ords (s +:+ t) = (ords s ++ ords t)%list.
Proof.
  unfold ords. induction s as [|a s IH]; [done |].
  change (String a s +:+ t) with (String a (s +:+ t)).
  cbn [list_ascii_of_string map app]. by rewrite IH.
Qed.

Lemma length_ords s : length (ords s) = String.length s.
Proof. unfold ords. induction s as [|a s IH]; [done |]. cbn. by f_equal. Qed.

Lemma strip_http_length skip l : (length (strip_http skip l) <= length l)%nat.
Proof.
  revert skip. induction l as [|c l IH]; intros skip; [done |].
  cbn [strip_http]. destruct skip as [|k].
  - destruct (starts_with _ _); [specialize (IH 7%nat); cbn [length]; lia |].
    destruct (starts_with _ _); [specialize (IH 6%nat); cbn [length]; lia |].
    specialize (IH 0%nat). cbn [length]. lia.
  - specialize (IH k). cbn [length]. lia.
Qed.

(** What is kept and what is written in place of the rest are characters
    of the class. *)
Lemma sanitized_chars l :
  Forall (fun c => is_filename_char c = true)
         (map (fun c => if is_filename_char c then c else 95) l).
Proof.
  apply Forall_forall. intros c Hc. apply list_elem_of_fmap in Hc as (c0 & -> & _).
  by destruct (is_filename_char c0) eqn:H.
Qed.

Lemma is_filename_char_byte c : is_filename_char c = true -> byte c.
Proof.
  unfold is_filename_char, is_word, byte. intros H.
  repeat (apply orb_true_iff in H as [H|H]);
    repeat (apply andb_true_iff in H as [H ?]); lia.
Qed.

End FilenameFacts.

Section filename_properties.
Import Py Utils Base64Facts UtilsFacts2 FilenameFacts.

(** X20. The file name made from a source URL is safe to join to the
    storage directory: every character of it is a word character, a
    hyphen, an underscore or a full stop, so it contains no path separator
    and no NUL; it ends in [.txt], so it is neither [.] nor [..]; and it
    is at most four characters longer than the URL. *)
Theorem sanitized_filename_is_safe (url : string) :
  exists body,
    ords (create_sanitized_filename url) = (body ++ ords ".txt")%list /\
    Forall (fun c => is_filename_char c = true) (ords (create_sanitized_filename url)) /\
    (47 ∉ ords (create_sanitized_filename url)) /\
    (0 ∉ ords (create_sanitized_filename url)) /\
    (String.length (create_sanitized_filename url) <= String.length url + 4)%nat.
Proof.
  unfold create_sanitized_filename.
  set (body := map (fun c => if is_filename_char c then c else 95)
                   (strip_http 0 (ords url))).
  assert (Hbody : Forall (fun c => is_filename_char c = true) body)
    by apply sanitized_chars.
  assert (Hords : ords (chrs body +:+ ".txt") = (body ++ ords ".txt")%list).
  { rewrite ords_append, ords_chrs; [done |].
    eapply Forall_impl; [exact Hbody |]. apply is_filename_char_byte. }
  assert (Hall : Forall (fun c => is_filename_char c = true) (ords (chrs body +:+ ".txt"))).
  { rewrite Hords. apply Forall_app. split; [done |]. by repeat constructor. }
  exists body. split; [done |]. split; [done |].
  split; [| split].
  - intros Hin. rewrite Forall_forall in Hall. by specialize (Hall 47 Hin).
  - intros Hin. rewrite Forall_forall in Hall. by specialize (Hall 0 Hin).
  - rewrite <- !length_ords, Hords, length_app. subst body. rewrite length_map.
    pose proof (strip_http_length 0 (ords url)). cbn [length ords]. cbn. lia.
Qed.

(** X21. The file name does not tell an [http] source from the [https]
    source of the same name, nor either from the bare name: the stored
    links of such sources share a file. *)
Theorem sanitized_filename_ignores_scheme (url : string) :
  create_sanitized_filename ("http://" +:+ url) = create_sanitized_filename url /\
  create_sanitized_filename ("https://" +:+ url) = create_sanitized_filename url.
Proof.
  unfold create_sanitized_filename. rewrite !ords_append. split; reflexivity.
Qed.

End filename_properties.

Module SsFacts.
Import Py Base64 Re Tester Spec Utils Checks Base64Facts UtilsFacts2 FilenameFacts.

Lemma span_stop (p : Z -> bool) l x t :
  Forall (fun c => p c = true) l -> p x = false ->
  span p (l ++ x :: t) = (l, x :: t).
Proof.
  intros Hl Hx. induction Hl as [|c l Hc _ IH]; cbn.
  - by rewrite Hx.
  - by rewrite Hc, IH.
Qed.

Lemma span_all (p : Z -> bool) l :
  Forall (fun c => p c = true) l -> span p l = (l, []).
Proof.
  induction 1 as [|c l Hc _ IH]; cbn; [done |]. by rewrite Hc, IH.
Qed.

Lemma search_from_eq l :
  search_from l
  = match match_at l with
    | Some g => Some g
    | None => match l with [] => None | _ :: l' => search_from l' end
    end.
Proof. by destruct l. Qed.

(** No match of host-and-port starts inside a colon-free run that is
    followed by a colon and something other than a digit. *)
Lemma match_host_port_none l c t :
  Forall no_colon l -> is_digit c = false ->
  match_host_port (l ++ colon :: c :: t) = None.
Proof.
  intros Hl Hc. unfold match_host_port.
  rewrite (span_stop _ l colon (c :: t)) by done.
  destruct l as [|a l]; [done |]. cbn. by rewrite Hc.
Qed.

Lemma match_at_none l c t :
  Forall no_colon l -> is_digit c = false ->
  match_at (l ++ colon :: c :: t) = None.
Proof.
  intros Hl Hc. destruct l as [|a l].
  - cbn [app]. unfold match_at. change (colon =? at_sign) with false.
    by apply (match_host_port_none []).
  - cbn [app]. unfold match_at.
    apply Forall_cons in Hl as [Ha Hl'].
    rewrite (match_host_port_none l c t Hl' Hc).
    pose proof (match_host_port_none (a :: l) c t
                  ltac:(by constructor) Hc) as Hnone.
    cbn [app] in Hnone. rewrite Hnone.
    by destruct (a =? at_sign).
Qed.

Lemma search_from_skip l c t :
  Forall no_colon l -> is_digit c = false ->
  search_from (l ++ colon :: c :: t) = search_from (c :: t).
Proof.
  intros Hl Hc. induction Hl as [|a l Ha Hl IH].
  - rewrite search_from_eq. by rewrite (match_at_none [] c t).
  - rewrite search_from_eq.
    rewrite (match_at_none (a :: l) c t); [| by constructor | done].
    cbn [app]. exact IH.
Qed.

(** The second regular expression on [method:password@host:port]. *)
Lemma search_from_userinfo method c pw host d ds :
  Forall no_colon method -> no_colon c -> Forall no_colon pw -> Forall no_colon host ->
  is_digit c = false -> (c =? at_sign) = false ->
  Forall (fun x => is_digit x = true) (d :: ds) ->
  search_from (method ++ colon :: c :: pw ++ at_sign :: host ++ colon :: d :: ds)
  = Some (c :: pw ++ at_sign :: host, d :: ds).
Proof.
  intros Hm Hc Hpw Hhost Hcd Hcat Hds.
  rewrite search_from_skip by done.
  rewrite search_from_eq. unfold match_at. rewrite Hcat. unfold match_host_port.
  assert (Hrun : Forall no_colon (c :: pw ++ at_sign :: host)).
  { constructor; [done |]. apply Forall_app. split; [done |]. by constructor. }
  replace (c :: pw ++ at_sign :: host ++ colon :: d :: ds)
    with (((c :: pw ++ at_sign :: host) : list Z) ++ colon :: d :: ds)%list
    by (cbn [app]; by rewrite <- app_assoc).
  rewrite (span_stop _ _ colon (d :: ds) Hrun) by done.
  cbn [app]. rewrite (span_all is_digit (d :: ds) Hds). done.
Qed.

(** A substring test for one character. *)
Lemma index_char_none (a : ascii) s :
  Forall (fun c => c <> ord a) (ords s) -> String.index 0 (String a "") s = None.
Proof.
  unfold ords. induction s as [|b s IH]; intros Hs; [done |].
  cbn in Hs. apply Forall_cons in Hs as [Hb Hs].
  cbn [String.index String.prefix].
  destruct (ascii_dec a b) as [->|Hne]; [done |].
  by rewrite (IH Hs).
Qed.

Lemma chrs_ords s : chrs (ords s) = s.
Proof.
  unfold chrs, ords. induction s as [|a s IH]; [done |].
  cbn. rewrite IH. f_equal. unfold chr, ord. by rewrite N2Z.id, ascii_N_embedding.
Qed.

(** Base64 text has neither an at sign nor a hash. *)
Lemma b64text_plain b k :
  Forall byte b ->
  Forall (fun c => c <> at_sign /\ (negb (c =? hash)) = true)
         (b2a_data b ++ repeat BASE64_PAD k).
Proof.
  intros Hb. apply Forall_app. split.
  - apply b2a_data_Forall; [| done]. intros v Hv.
    pose proof (forall_below 64
      (fun v => negb (table_b2a_base64 v =? at_sign) && negb (table_b2a_base64 v =? hash))
      ltac:(by vm_compute) v Hv) as H.
    apply andb_true_iff in H as [H1 H2]. split; [| done].
    apply negb_true_iff in H1. unfold at_sign in *. lia.
  - apply Forall_forall. intros c Hc.
    apply list_elem_of_In in Hc. apply repeat_spec in Hc as ->. by split.
Qed.

(** The first lines of the base64 branch of [ss_endpoint]. *)
Lemma ss_link_base64 b k :
  Forall byte b ->
  contains "@" ("ss://" +:+ b64encode_pad k b) = false /\
  search_ss_payload ("ss://" +:+ b64encode_pad k b) = Some (b64encode_pad k b).
Proof.
  intros Hb. pose proof (b64text_plain b k Hb) as Hplain.
  pose proof (b64text_bytes b k Hb) as Hbytes.
  set (t := b64encode_pad k b).
  assert (Ht : ords t = (b2a_data b ++ repeat BASE64_PAD k)%list)
    by (by apply ords_chrs).
  split.
  - unfold contains. rewrite (index_char_none "@"); [done |].
    rewrite ords_append, Ht. apply Forall_app. split.
    + by repeat constructor.
    + eapply Forall_impl; [exact Hplain |]. by intros c [Hc _].
  - unfold search_ss_payload.
    change ("ss://" +:+ t)
      with (String "s" (String "s" (String ":" (String "/" (String "/" t))))).
    assert (Hidx : String.index 0 "ss://"
                     (String "s" (String "s" (String ":" (String "/" (String "/" t)))))
                   = Some 0%nat).
    { cbn. by destruct t. }
    rewrite Hidx. cbn [String.length Nat.add Nat.sub String.substring].
    rewrite Nat.sub_0_r, substring_full, Ht.
    rewrite span_all; [cbn [fst]; by rewrite <- Ht, chrs_ords |].
    eapply Forall_impl; [exact Hplain |]. by intros c [_ Hc].
Qed.

End SsFacts.

Section shadowsocks_properties.
Import Py Base64 Re Tester Spec Utils Checks Base64Facts UtilsFacts2 FilenameFacts SsFacts.

(** X22. A Shadowsocks link in the form base64 of
    [method:password@host:port] is probed at the wrong name. The link has
    no at sign, so the payload is decoded, and the second regular
    expression, finding no digit after the first colon, starts over behind
    it: the server it hands on is [password@host], not [host], and the
    port is [int] of the digits.  (The password is taken not to begin with
    a digit or an at sign.) *)
Theorem ss_base64_userinfo_joins_password_to_host
    (w : World) (J : list Z) (k : nat) (method pw host ds : list Z) (c d : Z)
    (s : state) :
  Forall byte J -> (k <= b2a_npad J)%nat ->
  utf8_decode_ignore w J
  = chrs (method ++ colon :: c :: pw ++ at_sign :: host ++ colon :: d :: ds) ->
  Forall byte (method ++ colon :: c :: pw ++ at_sign :: host ++ colon :: d :: ds) ->
  Forall no_colon method -> no_colon c -> Forall no_colon pw -> Forall no_colon host ->
  is_digit c = false -> (c =? at_sign) = false ->
  Forall (fun x => is_digit x = true) (d :: ds) ->
  ss_endpoint w ("ss://" +:+ b64encode_pad k J) s
  = (match int_of_str w (chrs (d :: ds)) with
     | inr port => inr (PyStr (chrs (c :: pw ++ at_sign :: host)), PyInt port)
     | inl e => inl e
     end,
     logged s (EvB64decode (b64encode J))).
Proof.
  intros HJ Hk Hdec Hbytes Hm Hc Hpw Hhost Hcd Hcat Hds.
  destruct (ss_link_base64 J k HJ) as [Hno_at Hpayload].
  destruct (b64decode_repadded J k HJ Hk) as [Hpad Hb64].
  unfold ss_endpoint. rewrite Hno_at, Hpayload.
  unfold decode_padded, mbind, M_bind, bind, lift, log.
  cbn zeta in Hpad. rewrite Hpad. cbn. rewrite Hb64. cbn. rewrite Hdec.
  unfold search_host_port. rewrite ords_chrs by done.
  rewrite search_from_userinfo by done.
  change (String (chr d) (string_of_list_ascii (map chr ds))) with (chrs (d :: ds)).
  by destruct (int_of_str w (chrs (d :: ds))).
Qed.

End shadowsocks_properties.

Module TrojanFacts.
Import Py Tester Base64Facts UtilsFacts2 FilenameFacts.

Lemma length_flat_map_pair {A} (f g : A -> Z) (l : list A) :
  length (flat_map (fun x => [f x; g x]) l) = (2 * length l)%nat.
Proof. induction l as [|x l IH]; [done |]. cbn [flat_map length app]. lia. Qed.

(** Hexadecimal digits are ASCII, so encoding them changes nothing. *)
Lemma hex_digits_ascii b :
  Forall byte b ->
  Forall (fun c => 0 <= c < 128)
         (flat_map (fun x => [hex_digit (Z.shiftr x 4); hex_digit (Z.land x 15)]) b).
Proof.
  induction 1 as [|x l Hx _ IH]; [constructor |].
  cbn [flat_map app].
  pose proof (forall_below 256
    (fun x => (0 <=? hex_digit (Z.shiftr x 4)) && (hex_digit (Z.shiftr x 4) <? 128)
              && (0 <=? hex_digit (Z.land x 15)) && (hex_digit (Z.land x 15) <? 128))
    ltac:(by vm_compute) x Hx) as H.
  cbv beta in H. repeat (apply andb_true_iff in H as [H ?]).
  repeat (constructor; [lia |]). exact IH.
Qed.

Lemma utf8_encode_ascii l :
  Forall (fun c => 0 <= c < 128) l ->
  flat_map (fun c => if c <? 128 then [c]
                     else [Z.lor 192 (Z.shiftr c 6); Z.lor 128 (Z.land c 63)]) l = l.
Proof.
  induction 1 as [|c l Hc _ IH]; [done |].
  cbn [flat_map]. rewrite IH.
  assert ((c <? 128) = true) as -> by lia. done.
Qed.

Lemma utf8_encode_hex b :
  Forall byte b ->
  utf8_encode (hex b)
  = flat_map (fun x => [hex_digit (Z.shiftr x 4); hex_digit (Z.land x 15)]) b.
Proof.
  intros Hb. pose proof (hex_digits_ascii b Hb) as Hascii.
  unfold utf8_encode, hex. rewrite ords_chrs.
  - by apply utf8_encode_ascii.
  - eapply Forall_impl; [exact Hascii |]. unfold byte. cbn beta. lia.
Qed.

Lemma trojan_handshake_packet_length p :
  length (trojan_handshake_packet (hex (utf8_encode p)))
  = (2 * length (utf8_encode p) + 21)%nat.
Proof.
  unfold trojan_handshake_packet.
  rewrite utf8_encode_hex by apply utf8_encode_bytes.
  rewrite length_app, length_flat_map_pair. cbn. lia.
Qed.

End TrojanFacts.

Section trojan_properties.
Import Py Tester Spec Rules Shape Traces More TrojanFacts.

(** X23. Whatever [test_trojan_link] sends was built from the user name
    of the link: the hexadecimal digits of its UTF-8 bytes, CRLF, the
    command, the address of the test destination and CRLF, that is twice
    the number of password bytes plus 21 bytes.  The header has the 56
    digits of the layout comment only for a password of 28 bytes. *)
Theorem trojan_packet_layout (w : World) (lnk : string) (timeout : Z)
    (d : list Z) (ok : bool) :
  EvSend d ok ∈ snd (test_trojan_link_run w lnk timeout) ->
  exists parsed password,
    urlparse w lnk = inr parsed /\ username parsed = Some password /\
    d = (utf8_encode (hex (utf8_encode password)) ++ [13; 10] ++ [1; 3; 12]
           ++ ords "v1.v2ray.com" ++ [0; 80] ++ [13; 10])%list /\
    length d = (2 * length (utf8_encode password) + 21)%nat.
Proof.
  unfold test_trojan_link_run.
  apply (run_probe_spec w lnk _ _
           (fun _ tr =>
              EvSend d ok ∈ tr ->
              exists parsed password,
                urlparse w lnk = inr parsed /\ username parsed = Some password /\
                d = (utf8_encode (hex (utf8_encode password)) ++ [13; 10] ++ [1; 3; 12]
                       ++ ords "v1.v2ray.com" ++ [0; 80] ++ [13; 10])%list /\
                length d = (2 * length (utf8_encode password) + 21)%nat)).
  unfold trojan_body.
  repeat wp_step; intros Hin; in_trace Hin;
    injection Hin as -> _;
    match goal with
    | Hp : trojan_password_hash (username ?p) = inr _ |- _ =>
        destruct (username p) as [password|] eqn:Huser; [| discriminate Hp];
        injection Hp as <-;
        exists p, password;
        (split; [first [assumption | reflexivity] |]);
        (split; [exact Huser |]);
        (split; [reflexivity | apply trojan_handshake_packet_length])
    end.
Qed.

End trojan_properties.

Module CapFacts.
Import Py Utils.

Lemma existsb_eqb x (keys : list string) :
  existsb (String.eqb x) keys = true <-> x ∈ keys.
Proof.
  rewrite existsb_exists. split.
  - intros (y & Hin & Heq). apply String.eqb_eq in Heq as ->. by apply list_elem_of_In.
  - intros Hin. exists x. split; [by apply list_elem_of_In | apply String.eqb_refl].
Qed.

(** The loop behind [dict.fromkeys], from any keys already there. *)
Lemma fromkeys_fold l : forall keys,
  NoDup keys ->
  let out := fold_left (fun keys x => if existsb (String.eqb x) keys then keys
                                      else keys ++ [x])%list l keys in
  NoDup out /\ (forall x, x ∈ out <-> x ∈ keys \/ x ∈ l).
Proof.
  induction l as [|a l IH]; intros keys Hnd; cbn [fold_left].
  - split; [done |]. intros x. split; [by left | intros [H|H]; [done |]].
    by apply elem_of_nil in H.
  - destruct (existsb (String.eqb a) keys) eqn:Hex.
    + apply existsb_eqb in Hex. destruct (IH keys Hnd) as [Hnd' Hel].
      split; [done |]. intros x. rewrite Hel, elem_of_cons.
      split; [tauto |]. intros [H|[->|H]]; tauto.
    + assert (Hnot : a ∉ keys).
      { intros Hin. apply existsb_eqb in Hin. congruence. }
      assert (Hnd1 : NoDup (keys ++ [a])).
      { apply NoDup_app. split; [done |]. split; [| apply NoDup_singleton].
        intros x Hx Hxa. apply list_elem_of_singleton in Hxa as ->. done. }
      destruct (IH _ Hnd1) as [Hnd' Hel].
      split; [done |]. intros x.
      rewrite Hel, elem_of_app, list_elem_of_singleton, elem_of_cons. tauto.
Qed.

Lemma dict_fromkeys_spec l :
  NoDup (dict_fromkeys l) /\ (forall x, x ∈ dict_fromkeys l <-> x ∈ l).
Proof.
  destruct (fromkeys_fold l [] (NoDup_nil_2 (A:=string))) as [Hnd Hel].
  split; [done |]. intros x. unfold dict_fromkeys. rewrite Hel.
  split; [intros [H|H]; [by apply elem_of_nil in H | done] | by right].
Qed.

(** A slice from a start is a suffix, and its length is what the adjusted
    index leaves. *)
Lemma slice_from_suffix {A} start (l : list A) : slice_from start l `suffix_of` l.
Proof. unfold slice_from. apply suffix_drop. Qed.

Lemma slice_from_last {A} n (l : list A) :
  0 < n -> Z.of_nat (length (slice_from (- n) l)) = Z.min n (Z.of_nat (length l)).
Proof.
  intros Hn. unfold slice_from.
  assert ((- n <? 0) = true) as -> by lia.
  rewrite length_drop. lia.
Qed.

Lemma slice_from_zero {A} (l : list A) : slice_from (- 0) l = l.
Proof.
  unfold slice_from. change (- 0 <? 0) with false. cbv iota.
  by rewrite Z.min_l by lia.
Qed.

End CapFacts.

Section cap_properties.
Import Py Utils CapFacts.

(** X24. Merging the stored links of a source with the new ones and
    capping them gives a list without duplicates of links that were
    stored or new, cut from the end of the merged list; with a positive
    limit it has at most that many links, and all of them when they are
    no more than the limit.  A limit of zero caps nothing: the slice from
    minus zero is the whole list. *)
Theorem cap_links_keeps_the_latest
    (SOURCE_LINK_LIMIT : Z) (existing_links new_links : list string) :
  let capped_links := cap_links SOURCE_LINK_LIMIT existing_links new_links in
  NoDup capped_links /\
  capped_links `suffix_of` dict_fromkeys (existing_links ++ new_links) /\
  (forall x, x ∈ capped_links -> x ∈ existing_links \/ x ∈ new_links) /\
  (0 < SOURCE_LINK_LIMIT ->
     Z.of_nat (length capped_links)
     = Z.min SOURCE_LINK_LIMIT
             (Z.of_nat (length (dict_fromkeys (existing_links ++ new_links))))) /\
  (SOURCE_LINK_LIMIT = 0 ->
     forall x, x ∈ existing_links \/ x ∈ new_links -> x ∈ capped_links).
Proof.
  intros capped_links. subst capped_links. unfold cap_links.
  destruct (dict_fromkeys_spec (existing_links ++ new_links)) as [Hnd Hel].
  pose proof (slice_from_suffix (- SOURCE_LINK_LIMIT)
                (dict_fromkeys (existing_links ++ new_links))) as Hsuf.
  split; [| split; [done |]; split; [| split]].
  - destruct Hsuf as [k Hk]. rewrite Hk in Hnd. by apply NoDup_app in Hnd as (_ & _ & ?).
  - intros x Hx. apply elem_of_app, Hel. destruct Hsuf as [k ->].
    apply elem_of_app. by right.
  - intros Hpos. by apply slice_from_last.
  - intros -> x Hx. rewrite slice_from_zero. by apply Hel, elem_of_app.
Qed.

End cap_properties.

(** * The further properties at the scenarios *)

Section further_instances.
Import Py Base64 Re Tester Spec Orchestrator Utils Checks Base64Facts
       UtilsFacts UtilsFacts2 SsFacts Scenario Scenario2.

Lemma bytes_of_forallb (l : list Z) :
  forallb (fun x => (0 <=? x) && (x <? 256)) l = true -> Forall byte l.
Proof.
  intros H. apply Forall_forall. intros x Hx. apply list_elem_of_In in Hx.
  apply (proj1 (forallb_forall _ l) H) in Hx. unfold byte. lia.
Qed.

Lemma Forall_of_forallb {A} (p : A -> bool) (l : list A) :
  forallb p l = true -> Forall (fun x => p x = true) l.
Proof.
  intros H. apply Forall_forall. intros x Hx. apply list_elem_of_In in Hx.
  exact (proj1 (forallb_forall _ l) H x Hx).
Qed.

(** X1 in the world without DNS: the Trojan probe reports the failed
    resolution and its run has no socket call. *)
Lemma dns_failure_opens_no_socket_witness :
  fst (test_trojan_link_run no_dns trojan_abc 5)
  = inr {| link := trojan_abc; status := dead; ping_ms := None;
           error := Some "DNS resolution failed for: example.com" |} /\
  existsb is_socket_event (snd (test_trojan_link_run no_dns trojan_abc 5)) = false.
Proof.
  pose proof (dns_failure_opens_no_socket no_dns trojan_abc 5) as H.
  apply Forall_cons in H as [_ H]. apply Forall_cons in H as [_ H].
  apply Forall_cons in H as [H _].
  split; [reflexivity |].
  exact (proj2 (proj2 (H _ "example.com" eq_refl eq_refl))).
Defined.

(** X2 at the VLESS server of [Scenario]: the probe reports alive, and its
    run is the fixed sequence. *)
Lemma handshake_probes_alive_trace_witness :
  exists r, fst (test_vless_link_run vless_server vless_link 5) = inr r /\
            status r = alive /\
  exists p port uuid_b ip,
    urlparse vless_server vless_link = inr p /\ Tester.port p = inr port /\
    uuid_bytes vless_server (of_opt_str (username p)) = inr uuid_b /\
    (snd (test_vless_link_run vless_server vless_link 5)
       = [EvUrlparse vless_link; EvSocket true; EvConnect ip (of_opt_int port) true;
          EvSend (vless_handshake_packet uuid_b) true; EvRecv true; EvClose]
     \/ exists sni,
        snd (test_vless_link_run vless_server vless_link 5)
        = [EvUrlparse vless_link; EvSocket true; EvConnect ip (of_opt_int port) true;
           EvTls sni true;
           EvSend (vless_handshake_packet uuid_b) true; EvRecv true; EvClose]).
Proof.
  eexists. split; [reflexivity |]. split; [reflexivity |].
  exact (proj1 (handshake_probes_alive_trace vless_server vless_link 5)
               _ eq_refl eq_refl).
Defined.


(** X4 at the endpoint that never answers the TCP connection: the socket
    that was created is closed, once and last. *)
Lemma socket_closed_exactly_when_opened_witness :
  EvSocket true ∈ snd (test_vless_link_run tcp_stalls vless_link 5) /\
  last (snd (test_vless_link_run tcp_stalls vless_link 5)) = Some EvClose /\
  count_close (snd (test_vless_link_run tcp_stalls vless_link 5)) = 1%nat.
Proof.
  assert (Hin : EvSocket true ∈ snd (test_vless_link_run tcp_stalls vless_link 5)).
  { vm_compute. apply list_elem_of_further, list_elem_of_here. }
  split; [exact Hin |].
  pose proof (socket_closed_exactly_when_opened tcp_stalls vless_link 5) as H.
  apply Forall_cons in H as [H _].
  exact (proj1 H Hin).
Defined.

(** X5 at the slow Trojan server of [Scenario]. *)
Lemma trojan_sockets_closed_exactly_when_opened_witness :
  EvTls (PyStr "example.com") true ∈ snd (test_trojan_link_run slow_trojan trojan_abc 5) /\
  last (snd (test_trojan_link_run slow_trojan trojan_abc 5)) = Some EvClose /\
  count_close (snd (test_trojan_link_run slow_trojan trojan_abc 5)) = 1%nat.
Proof.
  assert (Hin : EvTls (PyStr "example.com") true
                ∈ snd (test_trojan_link_run slow_trojan trojan_abc 5)).
  { vm_compute. do 2 apply list_elem_of_further. apply list_elem_of_here. }
  split; [exact Hin |].
  exact (proj1 (proj2 (trojan_sockets_closed_exactly_when_opened slow_trojan trojan_abc 5))
               (ex_intro (fun sni => EvTls sni true
                                     ∈ snd (test_trojan_link_run slow_trojan trojan_abc 5))
                         _ Hin)).
Defined.

(** X6 at the VLESS server of [Scenario], probed with timeout -1. *)
Lemma negative_timeout_never_connects_witness :
  EvSocket true ∈ snd (test_ss_link_run vless_server vless_link (-1)) /\
  fst (test_ss_link_run vless_server vless_link (-1))
  = inr (set_error (initial vless_link) "Invalid or unparsable SS link format").
Proof.
  assert (Hin : EvSocket true ∈ snd (test_ss_link_run vless_server vless_link (-1))).
  { vm_compute. apply list_elem_of_further, list_elem_of_here. }
  split; [exact Hin |].
  pose proof (negative_timeout_never_connects vless_server vless_link (-1)
                ltac:(lia)) as H.
  apply Forall_cons in H as [_ H]. apply Forall_cons in H as [_ H].
  apply Forall_cons in H as [H _].
  exact (proj2 (proj2 H) Hin).
Defined.

(** X7 at the VLESS server behind TLS. *)
Lemma vless_tls_only_when_requested_witness :
  EvTls (PyStr "example.com") true ∈ snd (test_vless_link_run vless_tls_server vless_link 5) /\
  exists p security,
    urlparse vless_tls_server vless_link = inr p /\
    param0 (parse_qs_safely vless_tls_server (query p)) "security" (PyStr "none")
    = inr security /\
    (security = PyStr "tls" \/ security = PyStr "xtls") /\
    param0 (parse_qs_safely vless_tls_server (query p)) "sni" (of_opt_str (hostname p))
    = inr (PyStr "example.com").
Proof.
  assert (Hin : EvTls (PyStr "example.com") true
                ∈ snd (test_vless_link_run vless_tls_server vless_link 5)).
  { vm_compute. do 3 apply list_elem_of_further. apply list_elem_of_here. }
  split; [exact Hin |].
  exact (proj1 (vless_tls_only_when_requested vless_tls_server vless_link 5) _ _ Hin).
Defined.

(** X8 at the slow Trojan server of [Scenario]. *)
Lemma trojan_tls_on_every_connection_witness :
  EvConnect (PyStr "203.0.113.7") (PyInt 443) true
  ∈ snd (test_trojan_link_run slow_trojan trojan_abc 5) /\
  exists p sni ok,
    urlparse slow_trojan trojan_abc = inr p /\
    param0 (parse_qs_safely slow_trojan (query p)) "sni" (of_opt_str (hostname p))
    = inr sni /\
    EvTls sni ok ∈ snd (test_trojan_link_run slow_trojan trojan_abc 5).
Proof.
  assert (Hin : EvConnect (PyStr "203.0.113.7") (PyInt 443) true
                ∈ snd (test_trojan_link_run slow_trojan trojan_abc 5)).
  { vm_compute. apply list_elem_of_further, list_elem_of_here. }
  split; [exact Hin |].
  exact (trojan_tls_on_every_connection slow_trojan trojan_abc 5 _ _ Hin).
Defined.

(** X9 at the endpoint that never answers the TCP connection. *)
Lemma socket_failure_sets_the_reason_witness :
  EvConnect (PyStr "203.0.113.7") (PyInt 443) false
  ∈ snd (test_vless_link_run tcp_stalls vless_link 5) /\
  reason_of vless_handlers vless_link
            (outcome (connect tcp_stalls (PyStr "203.0.113.7") (PyInt 443) 5))
            (fst (test_vless_link_run tcp_stalls vless_link 5)).
Proof.
  assert (Hin : EvConnect (PyStr "203.0.113.7") (PyInt 443) false
                ∈ snd (test_vless_link_run tcp_stalls vless_link 5)).
  { vm_compute. do 2 apply list_elem_of_further. apply list_elem_of_here. }
  split; [exact Hin |].
  pose proof (socket_failure_sets_the_reason tcp_stalls vless_link 5) as H.
  apply Forall_cons in H as [H _].
  exact (proj1 (proj2 H) _ _ Hin).
Defined.

(** X10 at the batch of [Scenario]: "trojan" is a key, "http" is not. *)
Lemma test_links_ping_keys_witness :
  exists out,
    test_links_ping batch_envs batch 200 8 = inr out /\
    is_Some (out !! "trojan") /\ ~ is_Some (out !! "http").
Proof.
  destruct (test_links_ping_keys batch_envs batch 200 8 ltac:(lia)) as (out & Hout & Hkeys).
  exists out. split; [exact Hout |]. split.
  - apply Hkeys. split.
    + vm_compute. apply list_elem_of_further, list_elem_of_further, list_elem_of_here.
    + eexists. split; [vm_compute; reflexivity | discriminate].
  - intros Hsome. apply Hkeys in Hsome as [Hin _].
    vm_compute in Hin.
    repeat (apply elem_of_cons in Hin as [Hin|Hin]; [discriminate Hin |]).
    by apply elem_of_nil in Hin.
Defined.

(** X11 at the batch of [Scenario] and the batch of its Trojan links
    alone, with 200 workers and with one. *)
Lemma test_links_ping_local_witness :
  exists out1 out2,
    test_links_ping batch_envs batch 200 8 = inr out1 /\
    test_links_ping batch_envs
      (<["trojan" := [trojan_abc; "trojan://abc@example.org:443"]]> ∅) 1 8 = inr out2 /\
    out1 !! "trojan" = out2 !! "trojan".
Proof.
  apply (test_links_ping_local batch_envs batch
           (<["trojan" := [trojan_abc; "trojan://abc@example.org:443"]]> ∅)
           200 1 8 "trojan"); [lia | lia |].
  vm_compute. reflexivity.
Defined.

Lemma slow_trojan_parses lnk e : urlparse slow_trojan lnk <> inl e.
Proof. discriminate. Qed.

Lemma no_object_without_json payload d :
  decode_config slow_trojan ("vmess://" +:+ payload) <> inr (PyDict d).
Proof.
  unfold decode_config. rewrite split1_snd_vmess. unfold mbind, exn_bind.
  by destruct (b64decode _).
Qed.

(** X12 on four links, one of them without a scheme. *)
Lemma categorize_links_groups_by_scheme_witness :
  exists m,
    categorize_links slow_trojan lib0 mixed_links = inr m /\
    m !! "trojan" = Some [trojan_abc; "trojan://abc@example.org:443"] /\
    m !! "" = None.
Proof.
  destruct (categorize_links_groups_by_scheme slow_trojan lib0 mixed_links)
    as [Hret Hm].
  destruct Hret as [m Hmeq].
  { intros lnk e _ Hup. by destruct (slow_trojan_parses lnk e). }
  exists m. split; [exact Hmeq |].
  destruct (Hm m Hmeq) as (Hempty & _ & Hgroup).
  split; [| exact Hempty].
  exact (Hgroup "trojan" ltac:(discriminate) ltac:(vm_compute; discriminate)).
Defined.

(** X13 on the same links, probed against the slow Trojan server. *)
Lemma categorize_then_test_witness :
  exists cl out rs,
    categorize_links slow_trojan lib0 mixed_links = inr cl /\
    test_links_ping batch_envs cl 200 8 = inr out /\
    out !! "trojan" = Some rs /\
    link <$> rs = [trojan_abc; "trojan://abc@example.org:443"] /\
    out !! "" = None.
Proof.
  destruct (categorize_links slow_trojan lib0 mixed_links) as [e|cl] eqn:Hcl;
    [vm_compute in Hcl; discriminate Hcl |].
  destruct (categorize_then_test slow_trojan lib0 batch_envs mixed_links cl 200 8
              ltac:(lia) Hcl) as (out & Hout & Htags).
  destruct (proj1 (Htags "trojan")) as (rs & Hrs & Hlinks & _).
  { vm_compute. apply list_elem_of_further, list_elem_of_further, list_elem_of_here. }
  { vm_compute. discriminate. }
  exists cl, out, rs. split; [reflexivity |]. split; [exact Hout |].
  split; [exact Hrs |]. split; [exact Hlinks |].
  apply (proj2 (Htags "")). left. intros Hin. unfold supported_tags in Hin.
  repeat (apply elem_of_cons in Hin as [Hin|Hin]; [discriminate Hin |]).
  by apply elem_of_nil in Hin.
Defined.

(** X14 at the JSON object of [Scenario]: without padding and with all of
    it the fingerprint is the same. *)
Lemma fingerprint_ignores_padding_witness :
  get_link_fingerprint vmess_server lib0 ("vmess://" +:+ b64encode_pad 0 vmess_json)
  = inr "vmess_example.com_443_None" /\
  get_link_fingerprint vmess_server lib0 ("vmess://" +:+ b64encode vmess_json)
  = inr "vmess_example.com_443_None".
Proof.
  split.
  - exact (fingerprint_ignores_padding vmess_server lib0 vmess_json 0 vmess_config_items
             (bytes_of_forallb vmess_json eq_refl) ltac:(vm_compute; lia) eq_refl).
  - exact (fingerprint_ignores_padding vmess_server lib0 vmess_json (b2a_npad vmess_json)
             vmess_config_items
             (bytes_of_forallb vmess_json eq_refl) ltac:(lia) eq_refl).
Defined.

(** X15 on two payloads that are not base64 of JSON. *)
Lemma undecodable_vmess_is_its_own_fingerprint_witness :
  get_link_fingerprint slow_trojan lib0 "vmess://!!" = inr "vmess://!!" /\
  get_link_fingerprint slow_trojan lib0 "vmess://!!"
  <> get_link_fingerprint slow_trojan lib0 "vmess://??".
Proof.
  destruct (undecodable_vmess_is_its_own_fingerprint slow_trojan lib0 "!!" "??"
              (no_object_without_json "!!") (no_object_without_json "??"))
    as [Hself Hinj].
  split; [exact Hself |].
  intros Heq. discriminate (Hinj Heq).
Defined.

(** X16 at the VMess link of [Scenario]. *)
Lemma renamed_vmess_link_decodes_witness :
  exists out,
    format_and_replace_remark vmess_server lib0
      ("vmess://" +:+ b64encode_pad 0 vmess_json) "DE" (PyInt 42) = inr out /\
    out = "vmess://" +:+ b64encode_pad 0 (utf8_encode (chrs vmess_json)) /\
    decode_config vmess_server out
    = json_loads vmess_server
        (utf8_decode_ignore vmess_server (utf8_encode (chrs vmess_json))).
Proof.
  apply (renamed_vmess_link_decodes vmess_server lib0 (b64encode_pad 0 vmess_json)
           "DE" (PyInt 42) vmess_config_items (chrs vmess_json)).
  - vm_compute. reflexivity.
  - reflexivity.
Defined.

(** X17 where [json.loads] reads back what [json.dumps] wrote. *)
Lemma renaming_keeps_vmess_fingerprint_witness :
  exists out,
    format_and_replace_remark renaming_world renaming_lib
      ("vmess://" +:+ b64encode_pad 0 vmess_json) "DE" (PyInt 42) = inr out /\
    get_link_fingerprint renaming_world renaming_lib out
    = get_link_fingerprint renaming_world renaming_lib
        ("vmess://" +:+ b64encode_pad 0 vmess_json).
Proof.
  apply (renaming_keeps_vmess_fingerprint renaming_world renaming_lib
           (b64encode_pad 0 vmess_json) "DE" (PyInt 42) vmess_config_items
           (chrs renamed_json)).
  - vm_compute. reflexivity.
  - reflexivity.
  - vm_compute. reflexivity.
Defined.

(** X18 on a payload that is not base64 of JSON. *)
Lemma helpers_never_raise_witness :
  format_and_replace_remark slow_trojan lib0 "vmess://!!" "DE" (PyInt 42)
  = inr "vmess://!!".
Proof.
  exact (proj2 (proj2 (helpers_never_raise slow_trojan lib0 "" "DE" (PyInt 42)))
               "!!" (no_object_without_json "!!")).
Defined.

(** X19 on one link found at two sources, from the empty table. *)
Lemma record_found_keeps_first_witness :
  exists m,
    record_found slow_trojan lib0 ∅ found = inr m /\
    recorded_ok slow_trojan lib0 m /\
    exists fp, get_link_fingerprint slow_trojan lib0 trojan_abc = inr fp /\
               is_Some (m !! fp).
Proof.
  destruct (record_found_keeps_first slow_trojan lib0 ∅ found)
    as (m & Hm & Hok & _ & Hcover & _).
  { intros fp lnk src Hl. rewrite lookup_empty in Hl. discriminate Hl. }
  exists m. split; [exact Hm |]. split; [exact Hok |].
  apply (Hcover trojan_abc "https://t.me/s/first"). apply list_elem_of_here.
Defined.

(** X22 on the base64 of aes-256-gcm:pw@example.com:8388. *)
Lemma ss_base64_userinfo_joins_password_to_host_witness :
  fst (ss_endpoint slow_trojan ("ss://" +:+ b64encode_pad 0 ss_userinfo)
         (start slow_trojan))
  = inr (PyStr "pw@example.com", PyInt 8388).
Proof.
  exact (f_equal fst
    (ss_base64_userinfo_joins_password_to_host slow_trojan ss_userinfo 0
       (ords "aes-256-gcm") (ords "w") (ords "example.com") (ords "388") 112 56
       (start slow_trojan)
       (bytes_of_forallb ss_userinfo eq_refl) ltac:(vm_compute; lia) eq_refl
       (bytes_of_forallb ss_userinfo eq_refl)
       (Forall_of_forallb (fun c => negb (c =? colon)) (ords "aes-256-gcm") eq_refl)
       eq_refl
       (Forall_of_forallb (fun c => negb (c =? colon)) (ords "w") eq_refl)
       (Forall_of_forallb (fun c => negb (c =? colon)) (ords "example.com") eq_refl)
       eq_refl eq_refl
       (Forall_of_forallb is_digit (56 :: ords "388") eq_refl))).
Defined.

(** X23 at the slow Trojan server of [Scenario]: the password abc gives a
    packet of 27 bytes. *)
Lemma trojan_packet_layout_witness :
  exists d,
    EvSend d true ∈ snd (test_trojan_link_run slow_trojan trojan_abc 5) /\
    exists parsed password,
      urlparse slow_trojan trojan_abc = inr parsed /\
      username parsed = Some password /\
      d = (utf8_encode (hex (utf8_encode password)) ++ [13; 10] ++ [1; 3; 12]
             ++ ords "v1.v2ray.com" ++ [0; 80] ++ [13; 10])%list /\
      length d = (2 * length (utf8_encode password) + 21)%nat.
Proof.
  set (d := trojan_handshake_packet "616263").
  assert (Hin : EvSend d true ∈ snd (test_trojan_link_run slow_trojan trojan_abc 5)).
  { vm_compute. do 3 apply list_elem_of_further. apply list_elem_of_here. }
  exists d. split; [exact Hin |].
  exact (trojan_packet_layout slow_trojan trojan_abc 5 d true Hin).
Defined.

(** X24 with a limit of two: the stored link that was found again keeps
    its old place and is the one cut off. *)
Lemma cap_links_keeps_the_latest_witness :
  cap_links 2 ["a"; "b"] ["a"; "c"] = ["b"; "c"] /\
  NoDup (cap_links 2 ["a"; "b"] ["a"; "c"]) /\
  Z.of_nat (length (cap_links 2 ["a"; "b"] ["a"; "c"])) = 2.
Proof.
  destruct (cap_links_keeps_the_latest 2 ["a"; "b"] ["a"; "c"])
    as (Hnd & _ & _ & Hlen & _).
  split; [reflexivity |]. split; [exact Hnd |].
  exact (Hlen ltac:(lia)).
Defined.

End further_instances.
